(** * Tenant configuration overlay of ChatGPT-in-Slack (main_prod.py)

    A shallow embedding of [register_revocation_handlers] and of the
    collaborators it talks to: the Python values that travel through the
    request context, the [json] codec used for the stored record, the GCS
    bucket, the installation store, the credential provider and the logger. *)

From Stdlib Require Import Ascii String NArith.
From stdpp Require Import base option strings list gmap.

Set Warnings "-register-all".
Open Scope string_scope.
Open Scope list_scope.

(** ** Python values *)

(** The values that reach the request context: [None], booleans, numbers,
    strings, lists and dicts.  A number is carried as its literal; no
    arithmetic is done on it in the code at hand.  A dict keeps its items in
    insertion order, as Python does. *)
Inductive PyVal : Type :=
| PyNone
| PyBool (b : bool)
| PyNum (lit : string)
| PyStr (s : string)
| PyList (items : list PyVal)
| PyDict (items : list (string * PyVal)).

(** [d.get(key)] on the items of a dict: [None] when the key is absent. *)
Fixpoint dict_lookup (key : string) (d : list (string * PyVal)) : option PyVal :=
  match d with
  | [] => None
  | (k, v) :: d' => if String.eqb k key then Some v else dict_lookup key d'
  end.

(** [d[key] = v]: the value of an existing key is replaced in place, a new
    key goes to the end. *)
Fixpoint dict_set (key : string) (v : PyVal) (d : list (string * PyVal))
  : list (string * PyVal) :=
  match d with
  | [] => [(key, v)]
  | (k, w) :: d' =>
      if String.eqb k key then (k, v) :: d' else (k, w) :: dict_set key v d'
  end.

(** [d.get(key, dflt)] and [d.get(key)]. *)
Definition dict_get_or (d : list (string * PyVal)) (key : string) (dflt : PyVal) : PyVal :=
  default dflt (dict_lookup key d).

Definition dict_get (d : list (string * PyVal)) (key : string) : PyVal :=
  dict_get_or d key PyNone.

(** [s.startswith(p)]. *)
Definition startswith (s p : string) : bool := String.prefix p s.

(** ** The json codec

    Python's [json.dumps] with its defaults ([ensure_ascii=True], separators
    [", "] and [": "]) and [json.loads] with its defaults ([strict=True]).
    A character of this model is one of the code points U+0000..U+00FF; an
    escape [\uXXXX] above U+00FF has no image in that type and the decoder
    gives up on it. *)
Module Json.

Definition hexdigit (n : N) : ascii :=
  ascii_of_N (if (n <? 10)%N then 48 + n else 87 + n)%N.

Definition hexval (c : ascii) : option N :=
  let n := N_of_ascii c in
  if (48 <=? n)%N && (n <=? 57)%N then Some (n - 48)%N
  else if (97 <=? n)%N && (n <=? 102)%N then Some (n - 87)%N
  else if (65 <=? n)%N && (n <=? 70)%N then Some (n - 55)%N
  else None.

(** ['\\u{0:04x}'.format(n)] for [n < 0x100]. *)
Definition escape_u (n : N) : string :=
  String "\" (String "u" (String "0" (String "0"
    (String (hexdigit (n / 16)) (String (hexdigit (n mod 16)) EmptyString))))).

(** [ESCAPE_DCT] and the [replace] callback of [py_encode_basestring_ascii]:
    the text that stands for one character. *)
Definition escape_char (c : ascii) : string :=
  let n := N_of_ascii c in
  if (n =? 34)%N then String "\" (String "034" EmptyString)
  else if (n =? 92)%N then "\\"
  else if (n =? 8)%N then "\b"
  else if (n =? 12)%N then "\f"
  else if (n =? 10)%N then "\n"
  else if (n =? 13)%N then "\r"
  else if (n =? 9)%N then "\t"
  else if (32 <=? n)%N && (n <=? 126)%N then String c EmptyString
  else escape_u n.

Fixpoint escape (s : string) : string :=
  match s with
  | EmptyString => EmptyString
  | String c r => escape_char c +:+ escape r
  end.

Definition encode_basestring_ascii (s : string) : string :=
  String "034" (escape s +:+ String "034" EmptyString).

(** [json.dumps]. *)
Fixpoint dumps (v : PyVal) : string :=
  match v with
  | PyNone => "null"
  | PyBool true => "true"
  | PyBool false => "false"
  | PyNum lit => lit
  | PyStr s => encode_basestring_ascii s
  | PyList items =>
      "[" +:+
      (fix go (l : list PyVal) : string :=
         match l with
         | [] => EmptyString
         | [x] => dumps x
         | x :: l' => dumps x +:+ ", " +:+ go l'
         end) items +:+ "]"
  | PyDict items =>
      "{" +:+
      (fix go (l : list (string * PyVal)) : string :=
         match l with
         | [] => EmptyString
         | [(k, x)] => encode_basestring_ascii k +:+ ": " +:+ dumps x
         | (k, x) :: l' => encode_basestring_ascii k +:+ ": " +:+ dumps x +:+ ", " +:+ go l'
         end) items +:+ "}"
  end.

(** [WHITESPACE = re.compile(r'[ \t\n\r]*')]. *)
Definition is_ws (c : ascii) : bool :=
  let n := N_of_ascii c in
  (n =? 32)%N || (n =? 9)%N || (n =? 10)%N || (n =? 13)%N.

Fixpoint skip_ws (s : string) : string :=
  match s with
  | String c r => if is_ws c then skip_ws r else s
  | EmptyString => s
  end.

(** The [BACKSLASH] table of the decoder. *)
Definition unescape (e : ascii) : option ascii :=
  let n := N_of_ascii e in
  if (n =? 34)%N then Some "034"%char
  else if (n =? 92)%N then Some "\"%char
  else if (n =? 47)%N then Some "/"%char
  else if (n =? 98)%N then Some (ascii_of_N 8)
  else if (n =? 102)%N then Some (ascii_of_N 12)
  else if (n =? 110)%N then Some (ascii_of_N 10)
  else if (n =? 114)%N then Some (ascii_of_N 13)
  else if (n =? 116)%N then Some (ascii_of_N 9)
  else None.

(** [_decode_uXXXX]: four hexadecimal digits. *)
Definition decode_uXXXX (h1 h2 h3 h4 : ascii) : option N :=
  a ← hexval h1; b ← hexval h2; c ← hexval h3; d ← hexval h4;
  Some (((a * 16 + b) * 16 + c) * 16 + d)%N.

Definition cons_char (c : ascii) (r : option (string * string)) : option (string * string) :=
  '(s, rest) ← r; Some (String c s, rest).

(** [py_scanstring], entered after the opening quote: the decoded string
    and what follows the closing quote. *)
Fixpoint scanstring (s : string) : option (string * string) :=
  match s with
  | EmptyString => None
  | String c r =>
      let n := N_of_ascii c in
      if (n =? 34)%N then Some (EmptyString, r)
      else if (n =? 92)%N then
        match r with
        | EmptyString => None
        | String e r1 =>
            if (N_of_ascii e =? 117)%N then
              match r1 with
              | String h1 (String h2 (String h3 (String h4 r2))) =>
                  match decode_uXXXX h1 h2 h3 h4 with
                  | Some uni =>
                      if (uni <? 256)%N then cons_char (ascii_of_N uni) (scanstring r2)
                      else None
                  | None => None
                  end
              | _ => None
              end
            else
              match unescape e with
              | Some ch => cons_char ch (scanstring r1)
              | None => None
              end
        end
      else if (n <? 32)%N then None
      else cons_char c (scanstring r)
  end.

Definition is_digit (c : ascii) : bool :=
  let n := N_of_ascii c in (48 <=? n)%N && (n <=? 57)%N.

Fixpoint span_digits (s : string) : string * string :=
  match s with
  | String c r =>
      if is_digit c then let '(ds, rest) := span_digits r in (String c ds, rest)
      else (EmptyString, s)
  | EmptyString => (EmptyString, s)
  end.

(** The four parts of [NUMBER_RE], each matched at the head of its
    argument and giving what it matched and the rest: an optional minus
    sign; 0, or a non-zero digit and more digits; an optional fraction (a dot
    and one or more digits); an optional exponent (e or E, an optional sign,
    one or more digits). *)
Definition number_sign (s : string) : string * string :=
  match s with
  | String c r => if Ascii.eqb c "-" then (String c EmptyString, r) else (EmptyString, s)
  | EmptyString => (EmptyString, s)
  end.

Definition number_int (s : string) : option (string * string) :=
  match s with
  | String c r =>
      if is_digit c then
        if Ascii.eqb c "0" then Some (String c EmptyString, r)
        else let '(ds, rest) := span_digits r in Some (String c ds, rest)
      else None
  | EmptyString => None
  end.

Definition number_frac (s : string) : string * string :=
  match s with
  | String c r =>
      if Ascii.eqb c "." then
        match span_digits r with
        | (EmptyString, _) => (EmptyString, s)
        | (ds, rest) => (String c ds, rest)
        end
      else (EmptyString, s)
  | EmptyString => (EmptyString, s)
  end.

Definition number_exp (s : string) : string * string :=
  match s with
  | String e r =>
      if Ascii.eqb e "e" || Ascii.eqb e "E" then
        let '(sg, r') :=
          match r with
          | String c r' =>
              if Ascii.eqb c "+" || Ascii.eqb c "-" then (String c EmptyString, r')
              else (EmptyString, r)
          | EmptyString => (EmptyString, r)
          end in
        match span_digits r' with
        | (EmptyString, _) => (EmptyString, s)
        | (ds, rest) => (String e (sg +:+ ds), rest)
        end
      else (EmptyString, s)
  | EmptyString => (EmptyString, s)
  end.

(** [NUMBER_RE.match]: the literal and the rest. *)
Definition match_number (s : string) : option (string * string) :=
  let '(sign, s1) := number_sign s in
  '(int, s2) ← number_int s1;
  let '(frac, s3) := number_frac s2 in
  let '(exp, s4) := number_exp s3 in
  Some (sign +:+ int +:+ frac +:+ exp, s4).

(** [string[idx:idx+len(w)] == w], giving the rest. *)
Fixpoint strip_prefix (w s : string) : option string :=
  match w, s with
  | EmptyString, _ => Some s
  | String a w', String b s' => if Ascii.eqb a b then strip_prefix w' s' else None
  | String _ _, EmptyString => None
  end.

(** The values that [scan_once] recognises by their spelling, in the order
    in which it tries them. *)
Definition scan_literal (s : string) : option (PyVal * string) :=
  match strip_prefix "null" s, strip_prefix "true" s, strip_prefix "false" s with
  | Some rest, _, _ => Some (PyNone, rest)
  | _, Some rest, _ => Some (PyBool true, rest)
  | _, _, Some rest => Some (PyBool false, rest)
  | _, _, _ =>
      match match_number s with
      | Some (lit, rest) => Some (PyNum lit, rest)
      | None =>
          match strip_prefix "NaN" s, strip_prefix "Infinity" s,
                strip_prefix "-Infinity" s with
          | Some rest, _, _ => Some (PyNum "NaN", rest)
          | _, Some rest, _ => Some (PyNum "Infinity", rest)
          | _, _, Some rest => Some (PyNum "-Infinity", rest)
          | _, _, _ => None
          end
      end
  end.

(** The scanner of [py_make_scanner]: [scan_once], [JSONObject] (entered
    after the opening quote of a key, with the pairs read so far) and
    [JSONArray] (entered on a value, with the values read so far).  Every call
    spends one unit of [fuel]. *)
Fixpoint scan_once (fuel : nat) (s : string) : option (PyVal * string) :=
  match fuel with
  | O => None
  | S fuel =>
      match s with
      | EmptyString => None
      | String c r =>
          if Ascii.eqb c "034" then '(str, rest) ← scanstring r; Some (PyStr str, rest)
          else if Ascii.eqb c "{" then
            match skip_ws r with
            | String c' rest =>
                if Ascii.eqb c' "}" then Some (PyDict [], rest)
                else if Ascii.eqb c' "034" then object_pairs fuel rest []
                else None
            | EmptyString => None
            end
          else if Ascii.eqb c "[" then
            match skip_ws r with
            | String c' rest =>
                if Ascii.eqb c' "]" then Some (PyList [], rest)
                else array_values fuel (String c' rest) []
            | EmptyString => None
            end
          else scan_literal s
      end
  end
with object_pairs (fuel : nat) (s : string) (pairs : list (string * PyVal))
  : option (PyVal * string) :=
  match fuel with
  | O => None
  | S fuel =>
      '(key, r) ← scanstring s;
      match skip_ws r with
      | String c r1 =>
          if Ascii.eqb c ":" then
            '(value, r2) ← scan_once fuel (skip_ws r1);
            let pairs := dict_set key value pairs in
            match skip_ws r2 with
            | String c' r3 =>
                if Ascii.eqb c' "}" then Some (PyDict pairs, r3)
                else if Ascii.eqb c' "," then
                  match skip_ws r3 with
                  | String c'' r4 =>
                      if Ascii.eqb c'' "034" then object_pairs fuel r4 pairs else None
                  | EmptyString => None
                  end
                else None
            | EmptyString => None
            end
          else None
      | EmptyString => None
      end
  end
with array_values (fuel : nat) (s : string) (values : list PyVal)
  : option (PyVal * string) :=
  match fuel with
  | O => None
  | S fuel =>
      '(value, r) ← scan_once fuel s;
      let values := values ++ [value] in
      match skip_ws r with
      | String c r1 =>
          if Ascii.eqb c "]" then Some (PyList values, r1)
          else if Ascii.eqb c "," then array_values fuel (skip_ws r1) values
          else None
      | EmptyString => None
      end
  end.

(** [json.loads]: [None] stands for [JSONDecodeError].  The fuel is more
    than any text can use: a call of the scanner is preceded by a character
    that no other call reads, except that an array spends one call on itself
    and one on its first value. *)
Definition loads (s : string) : option PyVal :=
  '(v, rest) ← scan_once (S (2 * String.length s)) (skip_ws s);
  match skip_ws rest with
  | EmptyString => Some v
  | String _ _ => None
  end.

End Json.


(** ** The world a handler runs in *)

(** The exceptions that the collaborators raise. *)
Inductive Exc : Type :=
| NotFound          (* google.api_core.exceptions.NotFound: no such blob *)
| GoogleAPIError    (* any other failure of a storage call *)
| OpenAIError       (* the credential provider rejected the request *)
| JSONDecodeError   (* json.loads *)
| AttributeError.   (* .get on a value that is not a dict *)

Inductive Outcome (A : Type) : Type :=
| Returned (a : A)
| Raised (e : Exc).
Arguments Returned {A} a.
Arguments Raised {A} e.

(** What lies outside the process while one handler runs: which
    (api key, model) pairs the credential provider lets [models.retrieve]
    succeed for, and which storage calls fail for a reason of their own
    (outage, permissions), by kind of call and blob name. *)
Inductive StorageCall : Type := Download | Upload | Delete.

Record Outside : Type := mkOutside {
  retrievable : string → string → bool;
  storage_fails : StorageCall → string → bool
}.

(** slack_sdk's installation store, seen through its interface: the
    installations it holds, keyed by enterprise, team and user, and the bot
    records, keyed by enterprise and team. *)
Record Installation : Type := mkInstallation {
  inst_enterprise : option string;
  inst_team : string;
  inst_user : string
}.

Record Bot : Type := mkBot {
  bot_enterprise : option string;
  bot_team : string
}.

Global Instance Installation_eq_dec : EqDecision Installation.
Proof. solve_decision. Defined.
Global Instance Bot_eq_dec : EqDecision Bot.
Proof. solve_decision. Defined.

Record InstallationStore : Type := mkInstallationStore {
  installations : list Installation;
  bots : list Bot
}.

(** [BoltContext]: the attributes read by the handlers and the dict part. *)
Record BoltContext : Type := mkBoltContext {
  enterprise_id : option string;
  team_id : string;
  entries : gmap string PyVal
}.

(** The arguments of one call of [ack]: [ack()] or
    [ack(response_action="errors", errors=...)]. *)
Inductive Ack : Type :=
| AckOk
| AckErrors (errors : gmap string string).

(** What the logger received. *)
Inductive LogRecord : Type :=
| DeleteFailed (team : string) (e : Exc)   (* logger.error("Failed to delete an OpenAI auth key: ...") *)
| LoggedException (e : Exc).               (* logger.exception(e) *)

(** A mutation that the bucket carried out. *)
Inductive BucketWrite : Type :=
| Uploaded (name data : string)
| Deleted (name : string).

(** Everything a handler can read or change: the bucket and the log of the
    mutations it carried out, the installation store, the context of the
    request being handled (Bolt hands the same object to every middleware and
    listener of a request), the calls of [ack] and the log records. *)
Record World : Type := mkWorld {
  bucket : gmap string string;          (* storage_client.bucket(openai_bucket_name) *)
  bucket_writes : list BucketWrite;
  installation_store : InstallationStore;   (* app.installation_store *)
  context : BoltContext;
  acked : list Ack;
  logged : list LogRecord
}.

Definition set_bucket (b : gmap string string) (ws : list BucketWrite) (w : World) : World :=
  mkWorld b ws (installation_store w) (context w) (acked w) (logged w).

Definition set_installation_store (i : InstallationStore) (w : World) : World :=
  mkWorld (bucket w) (bucket_writes w) i (context w) (acked w) (logged w).

Definition set_context (c : BoltContext) (w : World) : World :=
  mkWorld (bucket w) (bucket_writes w) (installation_store w) c (acked w) (logged w).

Definition add_ack (a : Ack) (w : World) : World :=
  mkWorld (bucket w) (bucket_writes w) (installation_store w) (context w)
          (acked w ++ [a]) (logged w).

Definition add_log (r : LogRecord) (w : World) : World :=
  mkWorld (bucket w) (bucket_writes w) (installation_store w) (context w)
          (acked w) (logged w ++ [r]).

(** ** The handler monad: reads [Outside], threads [World], may raise *)

Definition Handler (A : Type) : Type := Outside → World → Outcome A * World.

Global Instance Handler_ret : MRet Handler := λ A a _ w, (Returned a, w).

Global Instance Handler_bind : MBind Handler := λ A B f m o w,
  match m o w with
  | (Returned a, w') => f a o w'
  | (Raised e, w') => (Raised e, w')
  end.

Definition raise {A : Type} (e : Exc) : Handler A := λ _ w, (Raised e, w).

(** [try: body / except Exception as e: handler e]. *)
Definition try_except {A : Type} (body : Handler A) (handler : Exc → Handler A) : Handler A :=
  λ o w,
    match body o w with
    | (Returned a, w') => (Returned a, w')
    | (Raised e, w') => handler e o w'
    end.

Definition outside : Handler Outside := λ o w, (Returned o, w).
Definition get_world : Handler World := λ _ w, (Returned w, w).
Definition modify (f : World → World) : Handler unit := λ _ w, (Returned tt, f w).

(** [for x in xs: body x]. *)
Fixpoint for_each {A : Type} (xs : list A) (body : A → Handler unit) : Handler unit :=
  match xs with
  | [] => mret tt
  | x :: xs' => body x ;; for_each xs' body
  end.

(** ** The collaborators *)

(** [blob.download_as_text()] for [bucket.blob(name)]. *)
Definition download_as_text (name : string) : Handler string :=
  o ← outside; w ← get_world;
  if storage_fails o Download name then raise GoogleAPIError
  else match bucket w !! name with
       | Some data => mret data
       | None => raise NotFound
       end.

(** [blob.upload_from_string(data)]: overwrites the blob. *)
Definition upload_from_string (name data : string) : Handler unit :=
  o ← outside;
  if storage_fails o Upload name then raise GoogleAPIError
  else modify (λ w, set_bucket (<[name := data]> (bucket w))
                               (bucket_writes w ++ [Uploaded name data]) w).

(** [blob.delete()]: raises [NotFound] when there is no such blob. *)
Definition blob_delete (name : string) : Handler unit :=
  o ← outside; w ← get_world;
  if storage_fails o Delete name then raise GoogleAPIError
  else match bucket w !! name with
       | Some _ => modify (λ w, set_bucket (delete name (bucket w))
                                           (bucket_writes w ++ [Deleted name]) w)
       | None => raise NotFound
       end.

(** [OpenAI(api_key=api_key).models.retrieve(model=model)]; the model object
    it returns is not used. *)
Definition models_retrieve (api_key model : string) : Handler unit :=
  o ← outside;
  if retrievable o api_key model then mret tt else raise OpenAIError.

(** [json.loads]. *)
Definition json_loads (s : string) : Handler PyVal :=
  match Json.loads s with
  | Some v => mret v
  | None => raise JSONDecodeError
  end.

(** [config.get(key, dflt)]. *)
Definition config_get (config : PyVal) (key : string) (dflt : PyVal) : Handler PyVal :=
  match config with
  | PyDict d => mret (dict_get_or d key dflt)
  | _ => raise AttributeError
  end.

(** The delete methods of the installation store.  They remove what
    matches and report nothing: the file store turns a missing file into a
    warning of its own, and main_prod.py calls them outside any [try]. *)
Definition installation_matches (e : option string) (t : string) (user_id : option string)
    (i : Installation) : Prop :=
  inst_enterprise i = e ∧ inst_team i = t ∧
  match user_id with Some u => inst_user i = u | None => True end.

Global Instance installation_matches_dec e t user_id i :
  Decision (installation_matches e t user_id i).
Proof. unfold installation_matches. destruct user_id; apply _. Defined.

Definition bot_matches (e : option string) (t : string) (b : Bot) : Prop :=
  bot_enterprise b = e ∧ bot_team b = t.

Global Instance bot_matches_dec e t b : Decision (bot_matches e t b).
Proof. unfold bot_matches. apply _. Defined.

Definition delete_installation (e : option string) (t : string) (user_id : option string)
  : Handler unit :=
  modify (λ w,
    let s := installation_store w in
    set_installation_store
      (mkInstallationStore
         (filter (λ i, ¬ installation_matches e t user_id i) (installations s))
         (bots s)) w).

Definition delete_bot (e : option string) (t : string) : Handler unit :=
  modify (λ w,
    let s := installation_store w in
    set_installation_store
      (mkInstallationStore
         (installations s)
         (filter (λ b, ¬ bot_matches e t b) (bots s))) w).

Definition delete_all (e : option string) (t : string) : Handler unit :=
  delete_bot e t ;; delete_installation e t None.

(** [context[key] = v] and [context.get(key)]. *)
Definition context_set (key : string) (v : PyVal) : Handler unit :=
  modify (λ w,
    let c := context w in
    set_context (mkBoltContext (enterprise_id c) (team_id c) (<[key := v]> (entries c))) w).

Definition context_get (c : BoltContext) (key : string) : PyVal :=
  default PyNone (entries c !! key).

Definition ack (a : Ack) : Handler unit := modify (add_ack a).
Definition logger (r : LogRecord) : Handler unit := modify (add_log r).

(** ** Inputs of the handlers *)

(** The [tokens_revoked] event: [event["tokens"]] with its optional lists
    ["oauth"] and ["bot"] of revoked user ids. *)
Record Tokens : Type := mkTokens {
  oauth : option (list string);
  bot : option (list string)
}.

Record TokensRevoked : Type := mkTokensRevoked {
  tokens : option Tokens
}.

(** The submitted modal: [view["state"]["values"]["api_key"]["input"]["value"]]
    and [view["state"]["values"]["model"]["input"]["selected_option"]["value"]]. *)
Record View : Type := mkView {
  api_key_value : string;
  model_value : string
}.

(** What main_prod.py imports from app.env and app.i18n, which are not
    among the sources at hand: the process-wide settings, and [translate],
    which the design describes as returning the localized text. *)
Class AppEnv : Type := mkAppEnv {
  OPENAI_MODEL : PyVal;
  OPENAI_TEMPERATURE : PyVal;
  OPENAI_API_TYPE : PyVal;
  OPENAI_API_BASE : PyVal;
  OPENAI_API_VERSION : PyVal;
  OPENAI_DEPLOYMENT_ID : PyVal;
  OPENAI_FUNCTION_CALL_MODULE_NAME : PyVal;
  OPENAI_ORG_ID : PyVal;
  OPENAI_IMAGE_GENERATION_MODEL : PyVal;
  translate : PyVal → BoltContext → string → string
}.

(** ** register_revocation_handlers *)

Section Handlers.
Context `{AppEnv}.

(** [@app.event("tokens_revoked")] *)
Definition handle_tokens_revoked_events (event : TokensRevoked) : Handler unit :=
  w ← get_world;
  let context := context w in
  let user_ids := default [] (oauth (default (mkTokens None None) (tokens event))) in
  (if (0 <? length user_ids)%nat then
     for_each user_ids (λ user_id,
       delete_installation (enterprise_id context) (team_id context) (Some user_id))
   else mret tt) ;;
  let bots := default [] (bot (default (mkTokens None None) (tokens event))) in
  if (0 <? length bots)%nat then
    delete_bot (enterprise_id context) (team_id context) ;;
    try_except
      (blob_delete (team_id context))
      (λ e, logger (DeleteFailed (team_id context) e))
  else mret tt.

(** [@app.event("app_uninstalled")] *)
Definition handle_app_uninstalled_events : Handler unit :=
  w ← get_world;
  let context := context w in
  delete_all (enterprise_id context) (team_id context) ;;
  try_except
    (blob_delete (team_id context))
    (λ e, logger (DeleteFailed (team_id context) e)).

(** [@app.middleware] *)
Definition set_gcs_openai_api_key (next_ : Handler unit) : Handler unit :=
  w ← get_world;
  let context := context w in
  try_except
    (config_str ← download_as_text (team_id context);
     if startswith config_str "{" then
       config ← json_loads config_str;
       v ← config_get config "api_key" PyNone;
       context_set "OPENAI_API_KEY" v ;;
       v ← config_get config "model" PyNone;
       context_set "OPENAI_MODEL" v ;;
       v ← config_get config "image_generation_model" OPENAI_IMAGE_GENERATION_MODEL;
       context_set "OPENAI_IMAGE_GENERATION_MODEL" v ;;
       v ← config_get config "temperature" OPENAI_TEMPERATURE;
       context_set "OPENAI_TEMPERATURE" v
     else
       (* The legacy data format *)
       context_set "OPENAI_API_KEY" (PyStr config_str) ;;
       context_set "OPENAI_MODEL" OPENAI_MODEL ;;
       context_set "OPENAI_IMAGE_GENERATION_MODEL" OPENAI_IMAGE_GENERATION_MODEL ;;
       context_set "OPENAI_TEMPERATURE" OPENAI_TEMPERATURE)
    (λ _,
       context_set "OPENAI_API_KEY" PyNone ;;
       context_set "OPENAI_MODEL" PyNone ;;
       context_set "OPENAI_IMAGE_GENERATION_MODEL" PyNone ;;
       context_set "OPENAI_TEMPERATURE" PyNone) ;;
  context_set "OPENAI_API_TYPE" OPENAI_API_TYPE ;;
  context_set "OPENAI_API_BASE" OPENAI_API_BASE ;;
  context_set "OPENAI_API_VERSION" OPENAI_API_VERSION ;;
  context_set "OPENAI_DEPLOYMENT_ID" OPENAI_DEPLOYMENT_ID ;;
  context_set "OPENAI_ORG_ID" OPENAI_ORG_ID ;;
  context_set "OPENAI_FUNCTION_CALL_MODULE_NAME" OPENAI_FUNCTION_CALL_MODULE_NAME ;;
  next_.

(** The [ack] function of [app.view("configure")].  The inner handler ends
    in [return]: it gives [true], and [ack()] is skipped. *)
Definition validate_api_key_registration (view : View) : Handler unit :=
  w ← get_world;
  let context := context w in
  let already_set_api_key := context_get context "OPENAI_API_KEY" in
  let api_key := api_key_value view in
  let model := model_value view in
  try_except
    ((* Verify if the API key is valid *)
     models_retrieve api_key "gpt-3.5-turbo" ;;
     returned ← try_except
       ((* Verify if the given model works with the API key *)
        models_retrieve api_key model ;; mret false)
       (λ _,
          let text := "This model is not yet available for this API key" in
          let text :=
            match already_set_api_key with
            | PyNone => text
            | _ => translate already_set_api_key context text
            end in
          ack (AckErrors {[ "model" := text ]}) ;;
          mret true);
     if returned : bool then mret tt else ack AckOk)
    (λ _,
       let text := "This API key seems to be invalid" in
       let text :=
         match already_set_api_key with
         | PyNone => text
         | _ => translate already_set_api_key context text
         end in
       ack (AckErrors {[ "api_key" := text ]})).

(** The [lazy] function of [app.view("configure")]. *)
Definition save_api_key_registration (view : View) : Handler unit :=
  w ← get_world;
  let context := context w in
  let api_key := api_key_value view in
  let model := model_value view in
  try_except
    (models_retrieve api_key model ;;
     upload_from_string (team_id context)
       (Json.dumps (PyDict [("api_key", PyStr api_key); ("model", PyStr model)])))
    (λ e, logger (LoggedException e)).

End Handlers.

(** ** Observations *)

(** The tenant's record as a request sees it: the four entries that the
    middleware derives from the stored blob. *)
Record TenantConfigRecord : Type := mkTenantConfigRecord {
  apiKey : PyVal;
  model : PyVal;
  imageModel : PyVal;
  temperature : PyVal
}.

Definition tenant_config (c : BoltContext) : TenantConfigRecord :=
  mkTenantConfigRecord
    (context_get c "OPENAI_API_KEY")
    (context_get c "OPENAI_MODEL")
    (context_get c "OPENAI_IMAGE_GENERATION_MODEL")
    (context_get c "OPENAI_TEMPERATURE").

(** A tenant without configuration: every entry is [None]. *)
Definition NotConfigured : TenantConfigRecord :=
  mkTenantConfigRecord PyNone PyNone PyNone PyNone.

(** Loading is what the middleware does before it hands over: run it with
    a next stage that does nothing and read the context. *)
Definition load `{AppEnv} (o : Outside) (w : World) : TenantConfigRecord :=
  tenant_config (context (set_gcs_openai_api_key (mret tt) o w).2).

(** [event.get("tokens", {}).get("oauth", [])] and
    [event.get("tokens", {}).get("bot", [])]. *)
Definition revoked_users (event : TokensRevoked) : list string :=
  default [] (oauth (default (mkTokens None None) (tokens event))).

Definition revoked_bots (event : TokensRevoked) : list string :=
  default [] (bot (default (mkTokens None None) (tokens event))).

(** ** A concrete deployment, for examples *)

Module Example.

(** JSON text is written in the examples with an apostrophe wherever the
    stored text has a double quote. *)
Fixpoint json_text (s : string) : string :=
  match s with
  | EmptyString => EmptyString
  | String c r => String (if Ascii.eqb c "'" then "034"%char else c) (json_text r)
  end.

Definition env : AppEnv :=
  mkAppEnv (PyStr "gpt-3.5-turbo") (PyNum "1.0") PyNone (PyStr "https://api.openai.com/v1")
           PyNone PyNone PyNone PyNone (PyStr "dall-e-3")
           (λ _ _ text, "[translated] " +:+ text).

(** The provider knows one key, good for two models; storage works. *)
Definition provider (api_key model : string) : bool :=
  bool_decide (api_key = "sk-good") &&
  (bool_decide (model = "gpt-3.5-turbo") || bool_decide (model = "gpt-x")).

Definition fine : Outside := mkOutside provider (λ _ _, false).

(** The same, with every delete call on the bucket failing. *)
Definition delete_down : Outside :=
  mkOutside provider (λ c _, match c with Delete => true | _ => false end).

Definition request (team : string) : BoltContext := mkBoltContext None team ∅.

Definition store : InstallationStore :=
  mkInstallationStore
    [mkInstallation None "T1" "U1"; mkInstallation None "T1" "U2";
     mkInstallation None "T2" "U1"]
    [mkBot None "T1"; mkBot None "T2"].

Definition world (blobs : gmap string string) (team : string) : World :=
  mkWorld blobs [] store (request team) [] [].

End Example.

(** ** The other handlers of main_prod.py *)

(** What main_prod.py imports from app.slack_ui, which is not among the
    sources at hand: the default text of the home tab and the two view
    builders.  A view is a value handed on to the Slack client as it is. *)
Class SlackUI : Type := mkSlackUI {
  DEFAULT_HOME_TAB_MESSAGE : string;
  build_home_tab : PyVal → BoltContext → string → PyVal;
  build_configure_modal : BoltContext → PyVal
}.

(** What [client.users_info] comes back with.  [Exc] has no constructor for
    [SlackApiError]; the one place that catches it is [set_locale], so the
    call reports it in its result, with the text of the exception. *)
Inductive UsersInfo : Type :=
| UsersInfoResponse (data : PyVal)
| SlackApiError (e : string).

(** The [WebClient] a listener receives: the three methods main_prod.py
    calls.  They are the caller's; a handler is stated for any of them. *)
Record WebClient : Type := mkWebClient {
  views_publish : option string → PyVal → Handler unit;   (* user_id, view *)
  views_open : string → PyVal → Handler unit;             (* trigger_id, view *)
  users_info : option string → Handler UsersInfo          (* user, include_locale=True *)
}.

(** The attributes of the context that these handlers read besides the team:
    [context.authorize_result.bot_scopes], [context.actor_user_id] and
    [context.user_id]. *)
Record Requester : Type := mkRequester {
  bot_scopes : option (list string);
  actor_user_id : option string;
  user_id : option string
}.

(** [a or b] on two optional strings: [a] unless it is [None] or empty. *)
Definition py_or (a b : option string) : option string :=
  match a with
  | Some s => if String.eqb s EmptyString then b else a
  | None => b
  end.

Section OtherHandlers.
Context `{AppEnv} `{SlackUI}.

(** [@app.event("app_home_opened")] *)
Definition render_home_tab (req : Requester) (client : WebClient) : Handler unit :=
  w ← get_world;
  let context := context w in
  message ← try_except
    (download_as_text (team_id context) ;;
     mret "This app is ready to use in this workspace :raised_hands:")
    (λ _, mret DEFAULT_HOME_TAB_MESSAGE);
  let openai_api_key := context_get context "OPENAI_API_KEY" in
  views_publish client (user_id req) (build_home_tab openai_api_key context message).

(** [@app.action("configure")] with [body["trigger_id"]]. *)
Definition handle_configure_button (trigger_id : string) (client : WebClient) : Handler unit :=
  ack AckOk ;;
  w ← get_world;
  views_open client trigger_id (build_configure_modal (context w)).

(** [@app.middleware set_locale], registered when [USE_SLACK_LANGUAGE] is
    true.  The call of [next_] is the last statement of the [if] body. *)
Definition set_locale (req : Requester) (client : WebClient)
    (logger_debug : string → Handler unit) (next_ : Handler unit) : Handler unit :=
  let bot_scopes := bot_scopes req in
  if match bot_scopes with
     | Some scopes => bool_decide ("users:read" ∈ scopes)
     | None => false
     end
  then
    let user_id := py_or (actor_user_id req) (user_id req) in
    r ← users_info client user_id;
    match r with
    | UsersInfoResponse user_info =>
        user ← config_get user_info "user" (PyDict []);
        locale ← config_get user "locale" PyNone;
        context_set "locale" locale
    | SlackApiError e =>
        logger_debug ("Failed to fetch user info due to " +:+ e)
    end ;;
    next_
  else mret tt.

End OtherHandlers.

(** The world the middleware hands to the next stage: the four entries of the
    tenant, then the six process-wide settings, written over the entries that
    were there. *)
Definition enriched `{AppEnv} (o : Outside) (w : World) : World :=
  let c := context w in
  let r := load o w in
  set_context
    (mkBoltContext (enterprise_id c) (team_id c)
       (<["OPENAI_FUNCTION_CALL_MODULE_NAME" := OPENAI_FUNCTION_CALL_MODULE_NAME]>
       (<["OPENAI_ORG_ID" := OPENAI_ORG_ID]>
       (<["OPENAI_DEPLOYMENT_ID" := OPENAI_DEPLOYMENT_ID]>
       (<["OPENAI_API_VERSION" := OPENAI_API_VERSION]>
       (<["OPENAI_API_BASE" := OPENAI_API_BASE]>
       (<["OPENAI_API_TYPE" := OPENAI_API_TYPE]>
       (<["OPENAI_TEMPERATURE" := temperature r]>
       (<["OPENAI_IMAGE_GENERATION_MODEL" := imageModel r]>
       (<["OPENAI_MODEL" := model r]>
       (<["OPENAI_API_KEY" := apiKey r]> (entries c)))))))))))) w.

(** The keys the middleware writes. *)
Definition enriched_keys : list string :=
  ["OPENAI_API_KEY"; "OPENAI_MODEL"; "OPENAI_IMAGE_GENERATION_MODEL"; "OPENAI_TEMPERATURE";
   "OPENAI_API_TYPE"; "OPENAI_API_BASE"; "OPENAI_API_VERSION"; "OPENAI_DEPLOYMENT_ID";
   "OPENAI_ORG_ID"; "OPENAI_FUNCTION_CALL_MODULE_NAME"].

(** The answer of the ack phase, by the two probes. *)
Definition ack_answer `{AppEnv} (o : Outside) (c : BoltContext) (view : View) : Ack :=
  let already_set_api_key := context_get c "OPENAI_API_KEY" in
  let localized text :=
    match already_set_api_key with
    | PyNone => text
    | _ => translate already_set_api_key c text
    end in
  match retrievable o (api_key_value view) "gpt-3.5-turbo",
        retrievable o (api_key_value view) (model_value view) with
  | false, _ => AckErrors {[ "api_key" := localized "This API key seems to be invalid" ]}
  | true, false =>
      AckErrors {[ "model" := localized "This model is not yet available for this API key" ]}
  | true, true => AckOk
  end.

(** What the commit phase uploads for a submission. *)
Definition registration_data (view : View) : string :=
  Json.dumps (PyDict [("api_key", PyStr (api_key_value view));
                      ("model", PyStr (model_value view))]).

(** ** More of the concrete deployment *)

Module Cases.
Import Example.

(** A key that may use gpt-x and not the baseline model. *)
Definition narrow_provider (api_key model : string) : bool :=
  bool_decide (api_key = "sk-narrow") && bool_decide (model = "gpt-x").

Definition narrow : Outside := mkOutside narrow_provider (λ _ _, false).

Definition ui : SlackUI :=
  mkSlackUI "To start using this app, configure it"
            (λ openai_api_key _ message, PyDict [("key", openai_api_key); ("text", PyStr message)])
            (λ c, PyDict [("model", context_get c "OPENAI_MODEL")]).

(** A stand-in client: it leaves the view it is asked to show in the
    context, under the name of the method, and it knows one user. *)
Definition client : WebClient :=
  mkWebClient
    (λ _ view, context_set "views.publish" view)
    (λ _ view, context_set "views.open" view)
    (λ user,
       match user with
       | Some "U1" => mret (UsersInfoResponse
                              (PyDict [("ok", PyBool true);
                                       ("user", PyDict [("id", PyStr "U1");
                                                        ("locale", PyStr "ja-JP")])]))
       | _ => mret (SlackApiError "user_not_found")
       end).

Definition with_scope : Requester := mkRequester (Some ["chat:write"; "users:read"]) None (Some "U1").
Definition without_scope : Requester := mkRequester (Some ["chat:write"]) None (Some "U1").

End Cases.

(** * Facts about the json codec *)

Module JsonFacts.
Import Json.

Lemma append_nil (t : string) : EmptyString +:+ t = t.
Proof. reflexivity. Qed.

Lemma append_cons (c : ascii) (s t : string) : String c s +:+ t = String c (s +:+ t).
Proof. reflexivity. Qed.

Lemma append_assoc (a b c : string) : (a +:+ b) +:+ c = a +:+ (b +:+ c).
Proof.
  induction a as [|x a IH]; [reflexivity|].
  rewrite !append_cons. now rewrite IH.
Qed.

(** ** Decoding what was encoded *)

(** The decoder reads back the escape of any single character, whatever
    follows it. *)
Lemma scanstring_escape_char (c : ascii) (t : string) :
  scanstring (escape_char c +:+ t) = cons_char c (scanstring t).
Proof.
  destruct c as [b0 b1 b2 b3 b4 b5 b6 b7].
  destruct b0, b1, b2, b3, b4, b5, b6, b7; reflexivity.
Qed.

Lemma scanstring_escape (s rest : string) :
  scanstring (escape s +:+ String "034" rest) = Some (s, rest).
Proof.
  induction s as [|c s IH]; [reflexivity|].
  cbn [escape]. rewrite append_assoc, scanstring_escape_char, IH. reflexivity.
Qed.

Lemma scan_once_string (fuel : nat) (s rest : string) :
  scan_once (S fuel) (encode_basestring_ascii s +:+ rest) = Some (PyStr s, rest).
Proof.
  unfold encode_basestring_ascii. rewrite append_cons, append_assoc, append_cons, append_nil.
  cbn [scan_once]. change (Ascii.eqb "034" "034") with true. cbv iota.
  now rewrite scanstring_escape.
Qed.

Lemma skip_ws_quote (t : string) : skip_ws (String "034" t) = String "034" t.
Proof. reflexivity. Qed.

Lemma skip_ws_brace (t : string) : skip_ws (String "{" t) = String "{" t.
Proof. reflexivity. Qed.

Lemma skip_ws_space (t : string) : skip_ws (String " " t) = skip_ws t.
Proof. reflexivity. Qed.

Lemma object_pairs_unfold (fuel : nat) (s : string) (pairs : list (string * PyVal)) :
  object_pairs (S fuel) s pairs =
  '(key, r) ← scanstring s;
  match skip_ws r with
  | String c r1 =>
      if Ascii.eqb c ":" then
        '(value, r2) ← scan_once fuel (skip_ws r1);
        match skip_ws r2 with
        | String c' r3 =>
            if Ascii.eqb c' "}" then Some (PyDict (dict_set key value pairs), r3)
            else if Ascii.eqb c' "," then
              match skip_ws r3 with
              | String c'' r4 =>
                  if Ascii.eqb c'' "034"
                  then object_pairs fuel r4 (dict_set key value pairs) else None
              | EmptyString => None
              end
            else None
        | EmptyString => None
        end
      else None
  | EmptyString => None
  end.
Proof. reflexivity. Qed.

(** One item, a key and a string, written the way [dumps] writes it. *)
Lemma object_pairs_item (fuel : nat) (key text rest : string) (pairs : list (string * PyVal)) :
  object_pairs (S (S fuel))
    (escape key +:+ String "034" (String ":" (String " "
       (encode_basestring_ascii text +:+ rest)))) pairs
  = match skip_ws rest with
    | String c' r3 =>
        if Ascii.eqb c' "}" then Some (PyDict (dict_set key (PyStr text) pairs), r3)
        else if Ascii.eqb c' "," then
          match skip_ws r3 with
          | String c'' r4 =>
              if Ascii.eqb c'' "034"
              then object_pairs (S fuel) r4 (dict_set key (PyStr text) pairs) else None
          | EmptyString => None
          end
        else None
    | EmptyString => None
    end.
Proof.
  rewrite object_pairs_unfold, scanstring_escape. cbn [mbind option_bind].
  change (skip_ws (String ":" ?t)) with (String ":" t). cbv iota.
  change (Ascii.eqb ":" ":") with true. cbv iota.
  rewrite skip_ws_space.
  assert (skip_ws (encode_basestring_ascii text +:+ rest)
          = encode_basestring_ascii text +:+ rest) as -> by reflexivity.
  rewrite scan_once_string. reflexivity.
Qed.

Lemma scan_once_registration (fuel : nat) (api_key model rest : string) :
  scan_once (S (S (S (S fuel))))
    (String "{" (String "034" (escape "api_key" +:+ String "034" (String ":" (String " "
       (encode_basestring_ascii api_key +:+ String "," (String " " (String "034"
          (escape "model" +:+ String "034" (String ":" (String " "
             (encode_basestring_ascii model +:+ String "}" rest))))))))))))
  = Some (PyDict [("api_key", PyStr api_key); ("model", PyStr model)], rest).
Proof.
  cbn [scan_once]. change (Ascii.eqb "{" "034") with false.
  change (Ascii.eqb "{" "{") with true. cbv iota.
  rewrite skip_ws_quote. cbv iota.
  change (Ascii.eqb "034" "}") with false. change (Ascii.eqb "034" "034") with true. cbv iota.
  rewrite object_pairs_item.
  change (skip_ws (String "," ?t)) with (String "," t). cbv iota.
  change (Ascii.eqb "," "}") with false. change (Ascii.eqb "," ",") with true. cbv iota.
  rewrite skip_ws_space, skip_ws_quote. cbv iota.
  change (Ascii.eqb "034" "034") with true. cbv iota.
  rewrite object_pairs_item. reflexivity.
Qed.

(** What the commit phase writes is read back as the same two items. *)
Lemma loads_dumps_registration (api_key model : string) :
  loads (dumps (PyDict [("api_key", PyStr api_key); ("model", PyStr model)]))
  = Some (PyDict [("api_key", PyStr api_key); ("model", PyStr model)]).
Proof.
  assert (dumps (PyDict [("api_key", PyStr api_key); ("model", PyStr model)])
          = String "{" (String "034" (escape "api_key" +:+ String "034" (String ":" (String " "
              (encode_basestring_ascii api_key +:+ String "," (String " " (String "034"
                (escape "model" +:+ String "034" (String ":" (String " "
                  (encode_basestring_ascii model +:+ "}")))))))))))) as ->.
  { cbn [dumps]. unfold encode_basestring_ascii.
    repeat (rewrite ?append_cons, ?append_nil, ?append_assoc). reflexivity. }
  unfold loads. rewrite skip_ws_brace.
  match goal with |- context [S (2 * String.length ?t)] =>
    assert (∃ fuel, S (2 * String.length t) = S (S (S (S fuel)))) as [fuel ->]
      by (eexists; reflexivity)
  end.
  rewrite scan_once_registration. reflexivity.
Qed.

(** ** An object is decoded to a dict *)

Lemma object_pairs_dict (fuel : nat) :
  ∀ s pairs v rest, object_pairs fuel s pairs = Some (v, rest) → ∃ d, v = PyDict d.
Proof.
  induction fuel as [|fuel IH]; intros s pairs v rest Hv; [discriminate|].
  rewrite object_pairs_unfold in Hv.
  destruct (scanstring s) as [[key r]|]; [|discriminate]. cbn [mbind option_bind] in Hv.
  destruct (skip_ws r) as [|c r1]; [discriminate|].
  destruct (Ascii.eqb c ":"); [|discriminate].
  destruct (scan_once fuel (skip_ws r1)) as [[value r2]|]; [|discriminate].
  cbn [mbind option_bind] in Hv.
  destruct (skip_ws r2) as [|c2 r3]; [discriminate|].
  destruct (Ascii.eqb c2 "}"); [injection Hv as <- _; eauto|].
  destruct (Ascii.eqb c2 ","); [|discriminate].
  destruct (skip_ws r3) as [|c4 r4]; [discriminate|].
  destruct (Ascii.eqb c4 "034"); [eauto | discriminate].
Qed.

Lemma loads_brace_dict (s : string) (v : PyVal) :
  startswith s "{" = true → loads s = Some v → ∃ d, v = PyDict d.
Proof.
  destruct s as [|c r]; [discriminate|]. unfold startswith. cbn [String.prefix].
  destruct (ascii_dec "{" c) as [<-|]; [intros _|discriminate].
  unfold loads. rewrite skip_ws_brace.
  destruct (scan_once _ _) as [[w rest]|] eqn:E; [|discriminate].
  cbn [mbind option_bind]. intros Hv.
  assert (w = v) as -> by (destruct (skip_ws rest); congruence).
  clear Hv. cbn [scan_once] in E. change (Ascii.eqb "{" "034") with false in E.
  change (Ascii.eqb "{" "{") with true in E. cbv iota in E.
  destruct (skip_ws r) as [|c1 r1]; [discriminate|].
  destruct (Ascii.eqb c1 "}"); [injection E as <- _; eauto|].
  destruct (Ascii.eqb c1 "034"); [|discriminate].
  eapply object_pairs_dict, E.
Qed.

(** ** The fuel of [loads] is enough *)

Local Open Scope nat_scope.

Lemma skip_ws_length (s : string) : String.length (skip_ws s) ≤ String.length s.
Proof.
  induction s as [|c s IH]; cbn [skip_ws]; [lia|].
  destruct (is_ws c); cbn [String.length]; lia.
Qed.

Lemma cons_char_Some (c : ascii) (x : option (string * string)) (v rest : string) :
  cons_char c x = Some (v, rest) → ∃ v', x = Some (v', rest).
Proof.
  destruct x as [[v' r]|]; cbn; [|discriminate]. intros [= _ <-]. eauto.
Qed.

(** Every scanner leaves less than it was given. *)
Lemma scanstring_shorter_upto (n : nat) :
  ∀ s v rest, String.length s ≤ n → scanstring s = Some (v, rest) →
              String.length rest < String.length s.
Proof.
  induction n as [|n IH]; intros s v rest Hn Hs.
  { destruct s; [discriminate | cbn [String.length] in Hn; lia]. }
  destruct s as [|c r]; [discriminate|].
  cbn [scanstring] in Hs. cbn [String.length] in *.
  destruct (N_of_ascii c =? 34)%N; [injection Hs as _ <-; lia|].
  destruct (N_of_ascii c =? 92)%N.
  - destruct r as [|e r1]; [discriminate|]. cbn [String.length] in *.
    destruct (N_of_ascii e =? 117)%N.
    + destruct r1 as [|h1 [|h2 [|h3 [|h4 r2]]]]; try discriminate.
      cbn [String.length] in *.
      destruct (decode_uXXXX h1 h2 h3 h4) as [uni|]; [|discriminate].
      destruct (uni <? 256)%N; [|discriminate].
      apply cons_char_Some in Hs as [v' Hs]. apply IH in Hs; lia.
    + destruct (unescape e); [|discriminate].
      apply cons_char_Some in Hs as [v' Hs]. apply IH in Hs; lia.
  - destruct (N_of_ascii c <? 32)%N; [discriminate|].
    apply cons_char_Some in Hs as [v' Hs]. apply IH in Hs; lia.
Qed.

Lemma scanstring_shorter (s v rest : string) :
  scanstring s = Some (v, rest) → String.length rest < String.length s.
Proof. apply (scanstring_shorter_upto (String.length s)). lia. Qed.

Lemma span_digits_length (s : string) :
  String.length (span_digits s).2 ≤ String.length s.
Proof.
  induction s as [|c s IH]; cbn [span_digits]; [cbn; lia|].
  destruct (is_digit c); [|cbn; lia].
  destruct (span_digits s) as [ds rest]. cbn [snd String.length] in *. lia.
Qed.

Lemma number_sign_length (s : string) :
  String.length (number_sign s).2 ≤ String.length s.
Proof.
  destruct s as [|c r]; cbn [number_sign]; [cbn; lia|].
  destruct (Ascii.eqb c "-"); cbn [snd String.length]; lia.
Qed.

Lemma number_int_shorter (s lit rest : string) :
  number_int s = Some (lit, rest) → String.length rest < String.length s.
Proof.
  destruct s as [|c r]; cbn [number_int]; [discriminate|].
  destruct (is_digit c); [|discriminate].
  destruct (Ascii.eqb c "0"); [intros [= _ <-]; cbn [String.length]; lia|].
  pose proof (span_digits_length r) as Hr.
  destruct (span_digits r) as [ds rest']. intros [= _ <-]. cbn [snd String.length] in *. lia.
Qed.

Lemma number_frac_length (s : string) :
  String.length (number_frac s).2 ≤ String.length s.
Proof.
  destruct s as [|c r]; cbn [number_frac]; [cbn; lia|].
  destruct (Ascii.eqb c "."); [|cbn; lia].
  pose proof (span_digits_length r) as Hr.
  destruct (span_digits r) as [[|d ds] rest]; cbn [snd String.length] in *; lia.
Qed.

Lemma number_exp_length (s : string) :
  String.length (number_exp s).2 ≤ String.length s.
Proof.
  destruct s as [|e r]; cbn [number_exp]; [cbn; lia|].
  destruct (Ascii.eqb e "e" || Ascii.eqb e "E"); [|cbn; lia].
  assert (∃ sg r', (match r with
                    | String c r' =>
                        if Ascii.eqb c "+" || Ascii.eqb c "-"
                        then (String c EmptyString, r') else (EmptyString, r)
                    | EmptyString => (EmptyString, r)
                    end) = (sg, r') ∧ String.length r' ≤ String.length r)
    as (sg & r' & -> & Hr').
  { destruct r as [|c r']; [eauto|].
    destruct (Ascii.eqb c "+" || Ascii.eqb c "-"); eexists _, _; split;
      try reflexivity; cbn [String.length]; lia. }
  pose proof (span_digits_length r') as Hr.
  destruct (span_digits r') as [[|d ds] rest]; cbn [snd String.length] in *; lia.
Qed.

Lemma match_number_shorter (s lit rest : string) :
  match_number s = Some (lit, rest) → String.length rest < String.length s.
Proof.
  unfold match_number.
  pose proof (number_sign_length s) as H1.
  destruct (number_sign s) as [sign s1]. cbn [snd] in H1.
  destruct (number_int s1) as [[int s2]|] eqn:H2; [|discriminate].
  apply number_int_shorter in H2. cbn [mbind option_bind].
  pose proof (number_frac_length s2) as H3.
  destruct (number_frac s2) as [frac s3]. cbn [snd] in H3.
  pose proof (number_exp_length s3) as H4.
  destruct (number_exp s3) as [exp s4]. cbn [snd] in H4.
  intros [= _ <-]. lia.
Qed.

Lemma strip_prefix_length (w : string) :
  ∀ s rest, strip_prefix w s = Some rest →
            String.length s = String.length w + String.length rest.
Proof.
  induction w as [|a w IH]; intros s rest; cbn [strip_prefix].
  - intros [= ->]. reflexivity.
  - destruct s as [|b s]; [discriminate|].
    destruct (Ascii.eqb a b); [|discriminate].
    intros Hs. apply IH in Hs. cbn [String.length]. lia.
Qed.

Lemma scan_literal_shorter (s : string) (v : PyVal) (rest : string) :
  scan_literal s = Some (v, rest) → String.length rest < String.length s.
Proof.
  unfold scan_literal.
  destruct (strip_prefix "null" s) eqn:E1.
  { intros [= _ <-]. apply strip_prefix_length in E1. cbn [String.length] in E1. lia. }
  destruct (strip_prefix "true" s) eqn:E2.
  { intros [= _ <-]. apply strip_prefix_length in E2. cbn [String.length] in E2. lia. }
  destruct (strip_prefix "false" s) eqn:E3.
  { intros [= _ <-]. apply strip_prefix_length in E3. cbn [String.length] in E3. lia. }
  destruct (match_number s) as [[lit r]|] eqn:E4.
  { intros [= _ <-]. by apply match_number_shorter in E4. }
  destruct (strip_prefix "NaN" s) eqn:E5.
  { intros [= _ <-]. apply strip_prefix_length in E5. cbn [String.length] in E5. lia. }
  destruct (strip_prefix "Infinity" s) eqn:E6.
  { intros [= _ <-]. apply strip_prefix_length in E6. cbn [String.length] in E6. lia. }
  destruct (strip_prefix "-Infinity" s) eqn:E7; [|discriminate].
  intros [= _ <-]. apply strip_prefix_length in E7. cbn [String.length] in E7. lia.
Qed.

Lemma scan_shorter (fuel : nat) :
  (∀ s v rest, scan_once fuel s = Some (v, rest) →
               String.length rest < String.length s) ∧
  (∀ s pairs v rest, object_pairs fuel s pairs = Some (v, rest) →
                     String.length rest < String.length s) ∧
  (∀ s values v rest, array_values fuel s values = Some (v, rest) →
                      String.length rest < String.length s).
Proof.
  induction fuel as [|fuel (IHs & IHo & IHa)]; [repeat split; discriminate|].
  repeat split.
  - intros s v rest Hs. destruct s as [|c r]; [discriminate|].
    cbn [scan_once] in Hs. cbn [String.length].
    destruct (Ascii.eqb c "034").
    { destruct (scanstring r) as [[str r']|] eqn:E; [|discriminate].
      injection Hs as _ <-. apply scanstring_shorter in E. lia. }
    pose proof (skip_ws_length r) as Hr.
    destruct (Ascii.eqb c "{").
    { destruct (skip_ws r) as [|c' r']; [discriminate|]. cbn [String.length] in Hr.
      destruct (Ascii.eqb c' "}"); [injection Hs as _ <-; lia|].
      destruct (Ascii.eqb c' "034"); [|discriminate]. apply IHo in Hs. lia. }
    destruct (Ascii.eqb c "[").
    { destruct (skip_ws r) as [|c' r']; [discriminate|]. cbn [String.length] in Hr.
      destruct (Ascii.eqb c' "]"); [injection Hs as _ <-; lia|].
      apply IHa in Hs. cbn [String.length] in Hs. lia. }
    apply scan_literal_shorter in Hs. cbn [String.length] in Hs. lia.
  - intros s pairs v rest Hs. rewrite object_pairs_unfold in Hs.
    destruct (scanstring s) as [[key r]|] eqn:E; [|discriminate].
    apply scanstring_shorter in E. cbn [mbind option_bind] in Hs.
    pose proof (skip_ws_length r) as Hr.
    destruct (skip_ws r) as [|c r1]; [discriminate|]. cbn [String.length] in Hr.
    destruct (Ascii.eqb c ":"); [|discriminate].
    pose proof (skip_ws_length r1) as Hr1.
    destruct (scan_once fuel (skip_ws r1)) as [[value r2]|] eqn:E2; [|discriminate].
    apply IHs in E2. cbn [mbind option_bind] in Hs.
    pose proof (skip_ws_length r2) as Hr2.
    destruct (skip_ws r2) as [|c' r3]; [discriminate|]. cbn [String.length] in Hr2.
    destruct (Ascii.eqb c' "}"); [injection Hs as _ <-; lia|].
    destruct (Ascii.eqb c' ","); [|discriminate].
    pose proof (skip_ws_length r3) as Hr3.
    destruct (skip_ws r3) as [|c'' r4]; [discriminate|]. cbn [String.length] in Hr3.
    destruct (Ascii.eqb c'' "034"); [|discriminate]. apply IHo in Hs. lia.
  - intros s values v rest Hs. cbn [array_values] in Hs.
    destruct (scan_once fuel s) as [[value r]|] eqn:E; [|discriminate].
    apply IHs in E. cbn [mbind option_bind] in Hs.
    pose proof (skip_ws_length r) as Hr.
    destruct (skip_ws r) as [|c r1]; [discriminate|]. cbn [String.length] in Hr.
    destruct (Ascii.eqb c "]"); [injection Hs as _ <-; lia|].
    destruct (Ascii.eqb c ","); [|discriminate].
    pose proof (skip_ws_length r1) as Hr1.
    apply IHa in Hs. lia.
Qed.

(** With twice the length of the text to spend, and one more for an array
    entered by [array_values], the scanners give the same answer whatever
    fuel they have. *)
Lemma scan_fuel_enough (fuel : nat) : ∀ fuel',
  (∀ s, 2 * String.length s < fuel → 2 * String.length s < fuel' →
        scan_once fuel s = scan_once fuel' s) ∧
  (∀ s pairs, 2 * String.length s < fuel → 2 * String.length s < fuel' →
              object_pairs fuel s pairs = object_pairs fuel' s pairs) ∧
  (∀ s values, 2 * String.length s + 1 < fuel → 2 * String.length s + 1 < fuel' →
               array_values fuel s values = array_values fuel' s values).
Proof.
  induction fuel as [|fuel IH]; intros fuel'; [repeat split; intros; lia|].
  destruct fuel' as [|fuel']; [repeat split; intros; lia|].
  destruct (IH fuel') as (IHs & IHo & IHa). clear IH.
  repeat split.
  - intros s Hf Hf'. destruct s as [|c r]; [reflexivity|].
    cbn [scan_once]. cbn [String.length] in Hf, Hf'.
    destruct (Ascii.eqb c "034"); [reflexivity|].
    pose proof (skip_ws_length r) as Hr.
    destruct (Ascii.eqb c "{").
    { destruct (skip_ws r) as [|c' r']; [reflexivity|]. cbn [String.length] in Hr.
      destruct (Ascii.eqb c' "}"); [reflexivity|].
      destruct (Ascii.eqb c' "034"); [|reflexivity]. apply IHo; lia. }
    destruct (Ascii.eqb c "["); [|reflexivity].
    destruct (skip_ws r) as [|c' r']; [reflexivity|]. cbn [String.length] in Hr.
    destruct (Ascii.eqb c' "]"); [reflexivity|].
    apply IHa; cbn [String.length]; lia.
  - intros s pairs Hf Hf'. rewrite !object_pairs_unfold.
    destruct (scanstring s) as [[key r]|] eqn:E; [|reflexivity].
    apply scanstring_shorter in E. cbn [mbind option_bind].
    pose proof (skip_ws_length r) as Hr.
    destruct (skip_ws r) as [|c r1]; [reflexivity|]. cbn [String.length] in Hr.
    destruct (Ascii.eqb c ":"); [|reflexivity].
    pose proof (skip_ws_length r1) as Hr1.
    rewrite <- (IHs (skip_ws r1)) by lia.
    destruct (scan_once fuel (skip_ws r1)) as [[value r2]|] eqn:E2; [|reflexivity].
    apply scan_shorter in E2. cbn [mbind option_bind].
    pose proof (skip_ws_length r2) as Hr2.
    destruct (skip_ws r2) as [|c' r3]; [reflexivity|]. cbn [String.length] in Hr2.
    destruct (Ascii.eqb c' "}"); [reflexivity|].
    destruct (Ascii.eqb c' ","); [|reflexivity].
    pose proof (skip_ws_length r3) as Hr3.
    destruct (skip_ws r3) as [|c'' r4]; [reflexivity|]. cbn [String.length] in Hr3.
    destruct (Ascii.eqb c'' "034"); [|reflexivity]. apply IHo; lia.
  - intros s values Hf Hf'. cbn [array_values].
    rewrite <- (IHs s) by lia.
    destruct (scan_once fuel s) as [[value r]|] eqn:E; [|reflexivity].
    apply scan_shorter in E. cbn [mbind option_bind].
    pose proof (skip_ws_length r) as Hr.
    destruct (skip_ws r) as [|c r1]; [reflexivity|]. cbn [String.length] in Hr.
    destruct (Ascii.eqb c "]"); [reflexivity|].
    destruct (Ascii.eqb c ","); [|reflexivity].
    pose proof (skip_ws_length r1) as Hr1.
    apply IHa; lia.
Qed.

(** [loads] would answer the same with any larger fuel: its [None] is a
    text that does not parse, never a scanner that ran dry. *)
Lemma loads_fuel_enough (s : string) (fuel : nat) :
  2 * String.length s < fuel →
  scan_once fuel (skip_ws s) = scan_once (S (2 * String.length s)) (skip_ws s).
Proof.
  intros Hf. pose proof (skip_ws_length s) as Hs.
  apply scan_fuel_enough; lia.
Qed.

(** ** The codec on a few texts *)

Example loads_object :
  loads (dumps (PyDict [("api_key", PyStr "sk-1"); ("temperature", PyNum "0.5");
                        ("tags", PyList [PyBool true; PyNone; PyDict []])]))
  = Some (PyDict [("api_key", PyStr "sk-1"); ("temperature", PyNum "0.5");
                  ("tags", PyList [PyBool true; PyNone; PyDict []])]).
Proof. reflexivity. Qed.

Example loads_duplicate_key :
  loads "{ 'model' : 1, 'api_key' : 2, 'model' : 3 }"
  = None ∧
  loads (Example.json_text "{ 'model' : 1, 'api_key' : 2, 'model' : 3 }")
  = Some (PyDict [("model", PyNum "3"); ("api_key", PyNum "2")]).
Proof. split; reflexivity. Qed.

Example loads_rejects :
  loads "{oops" = None ∧ loads "{" = None ∧ loads "[1,]" = None ∧ loads "01" = None ∧
  loads "" = None ∧ loads "nul" = None.
Proof. repeat split. Qed.

Example loads_numbers :
  loads " [0, -12, 3.25, 1e9, -4.5E-3, NaN, -Infinity] "
  = Some (PyList [PyNum "0"; PyNum "-12"; PyNum "3.25"; PyNum "1e9"; PyNum "-4.5E-3";
                  PyNum "NaN"; PyNum "-Infinity"]).
Proof. reflexivity. Qed.

End JsonFacts.

(** * Running a handler *)

(** Project out of the worlds built along the way, leaving maps alone. *)
Ltac step :=
  cbn [fst snd bucket bucket_writes installation_store context acked logged
       enterprise_id team_id entries installations bots
       set_bucket set_installation_store set_context add_ack add_log].

(** Unfold the monad and the collaborators down to the case analysis on
    what lies outside. *)
Ltac run :=
  unfold set_gcs_openai_api_key, validate_api_key_registration,
    save_api_key_registration, handle_app_uninstalled_events,
    download_as_text, upload_from_string, blob_delete, models_retrieve,
    json_loads, config_get, delete_all, delete_bot, delete_installation,
    context_set, ack, logger, try_except, raise, outside, get_world, modify,
    mbind, mret, Handler_bind, Handler_ret;
  step.


(** Split on everything the middleware's [try] block depends on: whether
    the download fails, whether the blob is there, its first character,
    whether it decodes, and to what. *)
Ltac load_cases o w :=
  destruct (storage_fails o Download (team_id (context w)));
  [| destruct (bucket w !! team_id (context w)) as [?config_str|];
     [ destruct (startswith config_str "{");
       [ destruct (Json.loads config_str) as [[]|] |] |]];
  step.

Ltac entry :=
  step;
  repeat first [rewrite lookup_insert_eq | rewrite lookup_insert_ne by done];
  try reflexivity.

Lemma filter_all {A : Type} (P : A → Prop) `{!∀ x, Decision (P x)} (l : list A) :
  (∀ x, P x) → filter P l = l.
Proof.
  intros HP. induction l as [|x l IH]; [reflexivity|].
  rewrite filter_cons_True by apply HP. now rewrite IH.
Qed.

(** The loop over the revoked users removes, in this workspace, the
    installations of these users and nothing else. *)
Lemma for_each_delete_installation (e : option string) (t : string) (users : list string)
    (o : Outside) (w : World) :
  for_each users (λ user_id, delete_installation e t (Some user_id)) o w
  = (Returned tt,
     set_installation_store
       (mkInstallationStore
          (filter (λ i, ¬ (inst_enterprise i = e ∧ inst_team i = t ∧ inst_user i ∈ users))
                  (installations (installation_store w)))
          (bots (installation_store w))) w).
Proof.
  revert w. induction users as [|u users IH]; intros w.
  - cbn. f_equal. destruct w as [b bw [ins bs] c a l]. unfold set_installation_store. cbn.
    rewrite filter_all; [reflexivity|]. intros i (_ & _ & Hin). inversion Hin.
  - cbn [for_each]. unfold mbind, Handler_bind, delete_installation, modify.
    rewrite IH. unfold set_installation_store. cbn. do 3 f_equal.
    rewrite list_filter_filter. apply list_filter_iff. intros i.
    unfold installation_matches. rewrite elem_of_cons. tauto.
Qed.

(** The guarded delete of the tenant's blob: it always returns; the blob
    goes unless the call fails, and a failure or a missing blob is logged. *)
Lemma config_delete_run (team : string) (o : Outside) (w : World) :
  try_except (blob_delete team) (λ e, logger (DeleteFailed team e)) o w
  = (Returned tt,
     if storage_fails o Delete team then add_log (DeleteFailed team GoogleAPIError) w
     else match bucket w !! team with
          | Some _ => set_bucket (delete team (bucket w)) (bucket_writes w ++ [Deleted team]) w
          | None => add_log (DeleteFailed team NotFound) w
          end).
Proof.
  run. destruct (storage_fails o Delete team); [reflexivity|].
  destruct (bucket w !! team); reflexivity.
Qed.

(** The user loop of [handle_tokens_revoked_events], guard included. *)
Lemma revoked_users_loop (e : option string) (t : string) (users : list string)
    (o : Outside) (w : World) :
  (if (0 <? length users)%nat
   then for_each users (λ user_id, delete_installation e t (Some user_id))
   else mret tt) o w
  = for_each users (λ user_id, delete_installation e t (Some user_id)) o w.
Proof. destruct users; reflexivity. Qed.

Section Properties.
Context `{AppEnv}.

(** The two revocation handlers in closed form. *)
Lemma tokens_revoked_run (event : TokensRevoked) (o : Outside) (w : World) :
  let e := enterprise_id (context w) in
  let t := team_id (context w) in
  let w1 := (for_each (revoked_users event)
               (λ user_id, delete_installation e t (Some user_id)) o w).2 in
  handle_tokens_revoked_events event o w
  = match revoked_bots event with
    | [] => (Returned tt, w1)
    | _ :: _ =>
        try_except (blob_delete t) (λ x, logger (DeleteFailed t x)) o
                   (delete_bot e t o w1).2
    end.
Proof.
  intros e t w1. subst w1 e t.
  unfold handle_tokens_revoked_events, revoked_bots, revoked_users.
  unfold get_world, mbind, Handler_bind at 1 2. cbn [fst snd].
  rewrite revoked_users_loop, for_each_delete_installation. cbn [fst snd].
  destruct (default [] (bot _)); reflexivity.
Qed.

Lemma app_uninstalled_run (o : Outside) (w : World) :
  let e := enterprise_id (context w) in
  let t := team_id (context w) in
  handle_app_uninstalled_events o w
  = try_except (blob_delete t) (λ x, logger (DeleteFailed t x)) o
               (delete_all e t o w).2.
Proof. reflexivity. Qed.

(** C1. The ack phase answers by the two probes alone: a failed baseline
    probe gives an error on the api_key field, a passed baseline probe and a
    failed model probe give an error on the model field, two passed probes
    give the plain acknowledgement; in each case that one answer is all that
    changes, and the bucket is not written. *)
Theorem ack_phase_decided_by_probes (view : View) (o : Outside) (w : World) :
  let api_key := api_key_value view in
  let model := model_value view in
  let already_set_api_key := context_get (context w) "OPENAI_API_KEY" in
  let localized text :=
    match already_set_api_key with
    | PyNone => text
    | _ => translate already_set_api_key (context w) text
    end in
  let answer :=
    match retrievable o api_key "gpt-3.5-turbo", retrievable o api_key model with
    | false, _ => AckErrors {[ "api_key" := localized "This API key seems to be invalid" ]}
    | true, false =>
        AckErrors {[ "model" := localized "This model is not yet available for this API key" ]}
    | true, true => AckOk
    end in
  let r := validate_api_key_registration view o w in
  r = (Returned tt, add_ack answer w) ∧
  bucket r.2 = bucket w ∧ bucket_writes r.2 = bucket_writes w.
Proof.
  intros api_key model already localized answer r. subst r answer.
  run. subst api_key model.
  destruct (retrievable o (api_key_value view) "gpt-3.5-turbo");
    destruct (retrievable o (api_key_value view) (model_value view));
    cbn; auto.
Qed.

(** The commit phase in closed form. *)
Lemma save_api_key_registration_run (view : View) (o : Outside) (w : World) :
  let api_key := api_key_value view in
  let model := model_value view in
  let name := team_id (context w) in
  let data := Json.dumps (PyDict [("api_key", PyStr api_key); ("model", PyStr model)]) in
  save_api_key_registration view o w
  = (Returned tt,
     match retrievable o api_key model, storage_fails o Upload name with
     | true, false =>
         set_bucket (<[name := data]> (bucket w)) (bucket_writes w ++ [Uploaded name data]) w
     | false, _ => add_log (LoggedException OpenAIError) w
     | true, true => add_log (LoggedException GoogleAPIError) w
     end).
Proof.
  intros api_key model name data. run. subst api_key model name.
  destruct (retrievable o (api_key_value view) (model_value view));
    destruct (storage_fails o Upload (team_id (context w))); reflexivity.
Qed.

(** C2. The commit phase uploads the structured record exactly when the
    re-verification probe passes (and the upload call itself goes through);
    when the probe or the upload fails nothing is written, the exception goes
    to the logger, and the handler still returns: no answer reaches the user. *)
Theorem commit_phase_writes_iff_reverified (view : View) (o : Outside) (w : World) :
  let api_key := api_key_value view in
  let model := model_value view in
  let name := team_id (context w) in
  let data := Json.dumps (PyDict [("api_key", PyStr api_key); ("model", PyStr model)]) in
  let r := save_api_key_registration view o w in
  r = (Returned tt,
       match retrievable o api_key model, storage_fails o Upload name with
       | true, false =>
           set_bucket (<[name := data]> (bucket w)) (bucket_writes w ++ [Uploaded name data]) w
       | false, _ => add_log (LoggedException OpenAIError) w
       | true, true => add_log (LoggedException GoogleAPIError) w
       end) ∧
  (bucket_writes r.2 = bucket_writes w ++ [Uploaded name data]
   ↔ retrievable o api_key model = true ∧ storage_fails o Upload name = false) ∧
  (bucket_writes r.2 = bucket_writes w
   ↔ ¬ (retrievable o api_key model = true ∧ storage_fails o Upload name = false)) ∧
  acked r.2 = acked w.
Proof.
  intros api_key model name data r. subst r.
  assert (∀ l (x : BucketWrite), l ≠ l ++ [x]) as Hneq.
  { intros l x E. apply (f_equal length) in E. rewrite length_app in E. cbn in E. lia. }
  rewrite save_api_key_registration_run. subst api_key model name. cbn [fst snd].
  destruct (retrievable o (api_key_value view) (model_value view));
    destruct (storage_fails o Upload (team_id (context w))); cbn.
  - split; [reflexivity|]. split; [|split; [|reflexivity]].
    + split; [intros E; now apply Hneq in E | intros [_ [=]]].
    + split; [intros _ [_ [=]] | reflexivity].
  - split; [reflexivity|]. split; [|split; [|reflexivity]].
    + split; [auto | reflexivity].
    + split; [intros E; symmetry in E; now apply Hneq in E | intros E; now destruct E].
  - split; [reflexivity|]. split; [|split; [|reflexivity]].
    + split; [intros E; now apply Hneq in E | intros [[=] _]].
    + split; [intros _ [[=] _] | reflexivity].
  - split; [reflexivity|]. split; [|split; [|reflexivity]].
    + split; [intros E; now apply Hneq in E | intros [[=] _]].
    + split; [intros _ [[=] _] | reflexivity].
Qed.

(** C9. Whatever the load does (a record, a failure, no blob), the
    middleware itself returns, writes the six process-wide connection settings
    into the context and runs the next stage: with any next stage it behaves as
    that stage started in the world the middleware leaves behind. *)
Theorem middleware_always_hands_over (next_ : Handler unit) (o : Outside) (w : World) :
  ∃ w' : World,
    set_gcs_openai_api_key (mret tt) o w = (Returned tt, w') ∧
    set_gcs_openai_api_key next_ o w = next_ o w' ∧
    entries (context w') !! "OPENAI_API_TYPE" = Some OPENAI_API_TYPE ∧
    entries (context w') !! "OPENAI_API_BASE" = Some OPENAI_API_BASE ∧
    entries (context w') !! "OPENAI_API_VERSION" = Some OPENAI_API_VERSION ∧
    entries (context w') !! "OPENAI_DEPLOYMENT_ID" = Some OPENAI_DEPLOYMENT_ID ∧
    entries (context w') !! "OPENAI_ORG_ID" = Some OPENAI_ORG_ID ∧
    entries (context w') !! "OPENAI_FUNCTION_CALL_MODULE_NAME"
      = Some OPENAI_FUNCTION_CALL_MODULE_NAME.
Proof.
  run. load_cases o w;
    (eexists; split; [reflexivity|]; split; [reflexivity|]; repeat split; entry).
Qed.

(** Without a blob, or with a failing download, the tenant is not
    configured. *)
Lemma load_absent (o : Outside) (w : World) :
  bucket w !! team_id (context w) = None → load o w = NotConfigured.
Proof.
  intros Hb. unfold load. run. rewrite Hb.
  destruct (storage_fails o Download (team_id (context w))); cbn;
    unfold tenant_config, context_get, NotConfigured; f_equal; entry.
Qed.

Lemma load_download_failed (o : Outside) (w : World) :
  storage_fails o Download (team_id (context w)) = true → load o w = NotConfigured.
Proof.
  intros Hf. unfold load. run. rewrite Hf. cbn.
  unfold tenant_config, context_get, NotConfigured; f_equal; entry.
Qed.

(** C3, as the code has it.  A blob that does not begin with an opening
    brace is a legacy record: its whole text is the api key and the other
    three fields are the process-wide defaults. *)
Theorem legacy_payload_loaded (o : Outside) (w : World) (s : string) :
  bucket w !! team_id (context w) = Some s →
  storage_fails o Download (team_id (context w)) = false →
  startswith s "{" = false →
  load o w = mkTenantConfigRecord (PyStr s) OPENAI_MODEL OPENAI_IMAGE_GENERATION_MODEL
                                  OPENAI_TEMPERATURE.
Proof.
  intros Hb Hf Hs. unfold load. run. rewrite Hf, Hb, Hs. cbn.
  unfold tenant_config, context_get. f_equal; entry.
Qed.

Lemma load_structured (o : Outside) (w : World) (s : string) (d : list (string * PyVal)) :
  bucket w !! team_id (context w) = Some s →
  storage_fails o Download (team_id (context w)) = false →
  startswith s "{" = true →
  Json.loads s = Some (PyDict d) →
  load o w = mkTenantConfigRecord
               (dict_get d "api_key")
               (dict_get d "model")
               (dict_get_or d "image_generation_model" OPENAI_IMAGE_GENERATION_MODEL)
               (dict_get_or d "temperature" OPENAI_TEMPERATURE).
Proof.
  intros Hb Hf Hs Hv. unfold load. run. rewrite Hf, Hb, Hs, Hv. cbn.
  unfold tenant_config, context_get. f_equal; entry.
Qed.

(** C5, as the code has it.  A blob that begins with an opening brace and
    decodes is a dict; the context gets its api_key and its model as they are
    ([None] when the key is missing), and its image_generation_model and
    temperature with the process-wide default in place of a missing key. *)
Theorem structured_payload_loaded (o : Outside) (w : World) (s : string) (v : PyVal) :
  bucket w !! team_id (context w) = Some s →
  storage_fails o Download (team_id (context w)) = false →
  startswith s "{" = true →
  Json.loads s = Some v →
  ∃ d, v = PyDict d ∧
       load o w = mkTenantConfigRecord
                    (dict_get d "api_key")
                    (dict_get d "model")
                    (dict_get_or d "image_generation_model" OPENAI_IMAGE_GENERATION_MODEL)
                    (dict_get_or d "temperature" OPENAI_TEMPERATURE).
Proof.
  intros Hb Hf Hs Hv.
  destruct (JsonFacts.loads_brace_dict s v Hs Hv) as [d ->].
  exists d. split; [reflexivity|]. by apply (load_structured o w s).
Qed.

(** C6. An event that revokes user tokens and no bot token removes from
    the installation store exactly the installations of the named users in
    this workspace; the bot records, the bucket and with it the tenant's
    record stay as they were. *)
Theorem tokens_revoked_users_only (event : TokensRevoked) (o : Outside) (w : World) :
  revoked_bots event = [] →
  let e := enterprise_id (context w) in
  let t := team_id (context w) in
  let r := handle_tokens_revoked_events event o w in
  r.1 = Returned tt ∧
  installations (installation_store r.2)
  = filter (λ i, ¬ (inst_enterprise i = e ∧ inst_team i = t ∧
                    inst_user i ∈ revoked_users event))
           (installations (installation_store w)) ∧
  bots (installation_store r.2) = bots (installation_store w) ∧
  bucket r.2 = bucket w ∧ bucket_writes r.2 = bucket_writes w.
Proof.
  intros Hbots e t r. subst r e t.
  rewrite tokens_revoked_run, Hbots, for_each_delete_installation.
  repeat split.
Qed.

(** What each revocation handler leaves behind. *)
Lemma tokens_revoked_stores (event : TokensRevoked) (o : Outside) (w : World) :
  let e := enterprise_id (context w) in
  let t := team_id (context w) in
  let r := handle_tokens_revoked_events event o w in
  r.1 = Returned tt ∧
  context r.2 = context w ∧
  installations (installation_store r.2)
  = filter (λ i, ¬ (inst_enterprise i = e ∧ inst_team i = t ∧
                    inst_user i ∈ revoked_users event))
           (installations (installation_store w)) ∧
  bots (installation_store r.2)
  = match revoked_bots event with
    | [] => bots (installation_store w)
    | _ :: _ => filter (λ b, ¬ bot_matches e t b) (bots (installation_store w))
    end ∧
  bucket r.2
  = match revoked_bots event with
    | [] => bucket w
    | _ :: _ => if storage_fails o Delete t then bucket w else delete t (bucket w)
    end.
Proof.
  intros e t r. subst r e t. rewrite tokens_revoked_run.
  rewrite for_each_delete_installation. cbn [fst snd].
  destruct (revoked_bots event) as [|b bs]; [step; by repeat split|].
  rewrite config_delete_run. unfold delete_bot, modify. step.
  destruct (storage_fails o Delete (team_id (context w))); [step; by repeat split|].
  destruct (bucket w !! team_id (context w)) eqn:Hb; step; [by repeat split|].
  rewrite delete_id by done. by repeat split.
Qed.

Lemma app_uninstalled_stores (o : Outside) (w : World) :
  let e := enterprise_id (context w) in
  let t := team_id (context w) in
  let r := handle_app_uninstalled_events o w in
  r.1 = Returned tt ∧
  context r.2 = context w ∧
  installations (installation_store r.2)
  = filter (λ i, ¬ installation_matches e t None i) (installations (installation_store w)) ∧
  bots (installation_store r.2)
  = filter (λ b, ¬ bot_matches e t b) (bots (installation_store w)) ∧
  bucket r.2 = if storage_fails o Delete t then bucket w else delete t (bucket w).
Proof.
  intros e t r. subst r e t. rewrite app_uninstalled_run, config_delete_run.
  unfold delete_all, delete_bot, delete_installation, modify, mbind, Handler_bind. step.
  destruct (storage_fails o Delete (team_id (context w))); [step; by repeat split|].
  destruct (bucket w !! team_id (context w)) eqn:Hb; step; [by repeat split|].
  rewrite delete_id by done. by repeat split.
Qed.

(** C7, as the code has it.  After a [tokens_revoked] event that lists a
    bot, and after [app_uninstalled], the tenant's blob is gone and every
    later load for that team finds the tenant not configured, provided the
    delete call on the bucket did not fail. *)
Theorem revocation_deletes_config (event : TokensRevoked) (o : Outside) (w w' : World) :
  storage_fails o Delete (team_id (context w)) = false →
  (revoked_bots event ≠ [] ∧ w' = (handle_tokens_revoked_events event o w).2)
  ∨ w' = (handle_app_uninstalled_events o w).2 →
  bucket w' !! team_id (context w) = None ∧
  ∀ (o2 : Outside) (w2 : World),
    bucket w2 = bucket w' → team_id (context w2) = team_id (context w) →
    load o2 w2 = NotConfigured.
Proof.
  intros Hf Hw'.
  assert (bucket w' = delete (team_id (context w)) (bucket w)) as Hb.
  { destruct Hw' as [[Hbots ->] | ->].
    - destruct (tokens_revoked_stores event o w) as (_ & _ & _ & _ & ->).
      rewrite Hf. by destruct (revoked_bots event).
    - destruct (app_uninstalled_stores o w) as (_ & _ & _ & _ & ->). by rewrite Hf. }
  assert (bucket w' !! team_id (context w) = None) as Hnone
    by (rewrite Hb; apply lookup_delete_eq).
  split; [exact Hnone|].
  intros o2 w2 Hb2 Ht2. apply load_absent. by rewrite Hb2, Ht2.
Qed.

(** C8. A second delivery does not fail: run on what the first run left
    behind, under any conditions outside, each handler returns; and delivered
    under the conditions of the first run it changes neither the installation
    store nor the bucket. *)
Theorem revocation_handlers_idempotent (event : TokensRevoked) (o o' : Outside) (w : World) :
  let w1 := (handle_tokens_revoked_events event o w).2 in
  let u1 := (handle_app_uninstalled_events o w).2 in
  (handle_tokens_revoked_events event o' w1).1 = Returned tt ∧
  (handle_app_uninstalled_events o' u1).1 = Returned tt ∧
  installation_store (handle_tokens_revoked_events event o w1).2 = installation_store w1 ∧
  bucket (handle_tokens_revoked_events event o w1).2 = bucket w1 ∧
  installation_store (handle_app_uninstalled_events o u1).2 = installation_store u1 ∧
  bucket (handle_app_uninstalled_events o u1).2 = bucket u1.
Proof.
  intros w1 u1.
  assert (∀ s s' : InstallationStore,
            installations s = installations s' → bots s = bots s' → s = s') as Heq
    by (intros [] []; cbn; congruence).
  assert (∀ {A} (P : A → Prop) `{!∀ x, Decision (P x)} (l : list A),
            filter P (filter P l) = filter P l) as Hff
    by (intros; rewrite list_filter_filter; apply list_filter_iff; tauto).
  destruct (tokens_revoked_stores event o w) as (_ & Hc1 & Hi1 & Hb1 & Hk1).
  destruct (app_uninstalled_stores o w) as (_ & Hc2 & Hi2 & Hb2 & Hk2).
  fold w1 in Hc1, Hi1, Hb1, Hk1. fold u1 in Hc2, Hi2, Hb2, Hk2.
  split; [apply tokens_revoked_stores|]. split; [apply app_uninstalled_stores|].
  destruct (tokens_revoked_stores event o w1) as (_ & _ & Hi & Hb & Hk).
  destruct (app_uninstalled_stores o u1) as (_ & _ & Hi' & Hb' & Hk').
  rewrite Hc1 in Hi, Hb, Hk. rewrite Hc2 in Hi', Hb', Hk'.
  repeat split.
  - apply Heq.
    + rewrite Hi, Hi1. apply Hff.
    + rewrite Hb, Hb1. destruct (revoked_bots event); [done | apply Hff].
  - rewrite Hk, Hk1. destruct (revoked_bots event); [done|].
    destruct (storage_fails o Delete (team_id (context w))); [done|].
    apply delete_id, lookup_delete_eq.
  - apply Heq.
    + rewrite Hi', Hi2. apply Hff.
    + rewrite Hb', Hb2. apply Hff.
  - rewrite Hk', Hk2.
    destruct (storage_fails o Delete (team_id (context w))); [done|].
    apply delete_id, lookup_delete_eq.
Qed.

(** C4, as the code has it.  The commit phase stores the submitted api key
    and model and nothing else; once its probe and its upload have gone
    through, a load for the same team reads back that api key and that model,
    with the process-wide defaults for the image model and the temperature. *)
Theorem registration_round_trip (view : View) (o o2 : Outside) (w w2 : World) :
  retrievable o (api_key_value view) (model_value view) = true →
  storage_fails o Upload (team_id (context w)) = false →
  bucket w2 = bucket (save_api_key_registration view o w).2 →
  team_id (context w2) = team_id (context w) →
  storage_fails o2 Download (team_id (context w2)) = false →
  load o2 w2 = mkTenantConfigRecord (PyStr (api_key_value view)) (PyStr (model_value view))
                                    OPENAI_IMAGE_GENERATION_MODEL OPENAI_TEMPERATURE.
Proof.
  intros Hp Hu Hb Ht Hd.
  rewrite save_api_key_registration_run in Hb. rewrite Hp, Hu in Hb. cbn [snd bucket set_bucket] in Hb.
  rewrite (load_structured o2 w2
             (Json.dumps (PyDict [("api_key", PyStr (api_key_value view));
                                  ("model", PyStr (model_value view))]))
             [("api_key", PyStr (api_key_value view)); ("model", PyStr (model_value view))]).
  - reflexivity.
  - rewrite Hb, Ht. apply lookup_insert_eq.
  - exact Hd.
  - reflexivity.
  - apply JsonFacts.loads_dumps_registration.
Qed.

(** C10. An event whose two lists are empty deletes nothing: the handler
    returns and the world, installation store and bucket included, is as it
    was. *)
Theorem tokens_revoked_nothing_listed (event : TokensRevoked) (o : Outside) (w : World) :
  revoked_users event = [] →
  revoked_bots event = [] →
  handle_tokens_revoked_events event o w = (Returned tt, w).
Proof.
  intros Hu Hb. rewrite tokens_revoked_run, Hu, Hb. reflexivity.
Qed.

End Properties.

(** * Concrete runs *)

Module Runs.
Import Example.
#[local] Existing Instance env.

(** C1, the first scenario of the design: tenant T1 has no record and
    submits a key whose baseline probe fails; the answer is an error on the
    api_key field and the tenant is still not configured. *)
Example scenario_T1 :
  let w := world ∅ "T1" in
  let r := validate_api_key_registration (mkView "sk-bad" "m1") fine w in
  load fine w = NotConfigured ∧
  acked r.2 = [AckErrors {[ "api_key" := "This API key seems to be invalid" ]}] ∧
  bucket r.2 = ∅ ∧
  load fine r.2 = NotConfigured.
Proof. vm_compute. repeat split. Qed.

(** The second scenario: T2 submits a good key and model, the commit phase
    writes, the load reads it back, the uninstall removes it. *)
Example scenario_T2 :
  let w := world ∅ "T2" in
  let view := mkView "sk-good" "gpt-x" in
  let w1 := (validate_api_key_registration view fine w).2 in
  let w2 := (save_api_key_registration view fine w1).2 in
  let w3 := (handle_app_uninstalled_events fine w2).2 in
  acked w1 = [AckOk] ∧
  bucket w2 !! "T2" = Some (json_text "{'api_key': 'sk-good', 'model': 'gpt-x'}") ∧
  load fine w2 = mkTenantConfigRecord (PyStr "sk-good") (PyStr "gpt-x")
                                      (PyStr "dall-e-3") (PyNum "1.0") ∧
  load fine w3 = NotConfigured.
Proof. vm_compute. repeat split. Qed.

(** C3 as stated fails: the text "{oops" is not JSON, yet it is not read as
    a legacy key; the tenant comes out not configured. *)
Lemma legacy_fallback_counterexample :
  let s := "{oops" in
  let w := world {[ "T1" := s ]} "T1" in
  Json.loads s = None ∧
  load fine w = NotConfigured ∧
  load fine w ≠ mkTenantConfigRecord (PyStr s) OPENAI_MODEL OPENAI_IMAGE_GENERATION_MODEL
                                     OPENAI_TEMPERATURE.
Proof. vm_compute. repeat split. discriminate. Qed.

Lemma legacy_payload_loaded_witness :
  let s := "sk-legacy" in
  let w := world {[ "T1" := s ]} "T1" in
  startswith s "{" = false ∧
  load fine w = mkTenantConfigRecord (PyStr s) (PyStr "gpt-3.5-turbo") (PyStr "dall-e-3")
                                     (PyNum "1.0").
Proof.
  split; [reflexivity|].
  exact (legacy_payload_loaded fine (world {[ "T1" := "sk-legacy" ]} "T1") "sk-legacy"
           eq_refl eq_refl eq_refl).
Defined.

(** C4 as stated fails: the commit phase has no place for an image model or
    a temperature, so a record that carries its own does not come back. *)
Lemma full_record_round_trip_counterexample :
  let r := mkTenantConfigRecord (PyStr "sk-good") (PyStr "gpt-x") (PyStr "dall-e-2")
                                (PyNum "0.2") in
  let view := mkView "sk-good" "gpt-x" in
  let w := (save_api_key_registration view fine (world ∅ "T2")).2 in
  apiKey r = PyStr (api_key_value view) ∧
  model r = PyStr (model_value view) ∧
  bucket_writes w = [Uploaded "T2" (json_text "{'api_key': 'sk-good', 'model': 'gpt-x'}")] ∧
  load fine w ≠ r.
Proof. vm_compute. repeat split. discriminate. Qed.

Lemma registration_round_trip_witness :
  let view := mkView "sk-good" "gpt-x" in
  let w := world ∅ "T2" in
  retrievable fine "sk-good" "gpt-x" = true ∧
  load fine (save_api_key_registration view fine w).2
  = mkTenantConfigRecord (PyStr "sk-good") (PyStr "gpt-x") (PyStr "dall-e-3") (PyNum "1.0").
Proof.
  split; [reflexivity|].
  exact (registration_round_trip (mkView "sk-good" "gpt-x") fine fine (world ∅ "T2")
           (save_api_key_registration (mkView "sk-good" "gpt-x") fine (world ∅ "T2")).2
           eq_refl eq_refl eq_refl eq_refl eq_refl).
Defined.

(** C5 as stated fails: a stored record without a model leaves the model
    entry at [None], not at the default. *)
Lemma model_default_counterexample :
  let s := json_text "{'api_key': 'sk-1'}" in
  let w := world {[ "T1" := s ]} "T1" in
  Json.loads s = Some (PyDict [("api_key", PyStr "sk-1")]) ∧
  model (load fine w) = PyNone ∧
  model (load fine w) ≠ OPENAI_MODEL.
Proof. vm_compute. repeat split. discriminate. Qed.

Lemma structured_payload_loaded_witness :
  let s := json_text "{'api_key': 'sk-1', 'temperature': 0.5}" in
  let w := world {[ "T1" := s ]} "T1" in
  ∃ d, Json.loads s = Some (PyDict d) ∧
       load fine w = mkTenantConfigRecord (PyStr "sk-1") PyNone (PyStr "dall-e-3")
                                          (PyNum "0.5").
Proof.
  destruct (structured_payload_loaded fine
              (world {[ "T1" := json_text "{'api_key': 'sk-1', 'temperature': 0.5}" ]} "T1")
              (json_text "{'api_key': 'sk-1', 'temperature': 0.5}")
              (PyDict [("api_key", PyStr "sk-1"); ("temperature", PyNum "0.5")]))
    as (d & Hd & Hload); [vm_compute; reflexivity ..|].
  exists d. split; [by rewrite <- Hd | ].
  injection Hd as <-. exact Hload.
Defined.

Lemma tokens_revoked_users_only_witness :
  let event := mkTokensRevoked (Some (mkTokens (Some ["U1"]) None)) in
  let r := handle_tokens_revoked_events event fine (world {[ "T1" := "sk-legacy" ]} "T1") in
  installations (installation_store r.2)
  = [mkInstallation None "T1" "U2"; mkInstallation None "T2" "U1"] ∧
  bots (installation_store r.2) = [mkBot None "T1"; mkBot None "T2"] ∧
  bucket r.2 = {[ "T1" := "sk-legacy" ]}.
Proof.
  destruct (tokens_revoked_users_only
              (mkTokensRevoked (Some (mkTokens (Some ["U1"]) None))) fine
              (world {[ "T1" := "sk-legacy" ]} "T1") eq_refl)
    as (_ & Hi & Hb & Hk & _).
  split; [rewrite Hi; vm_compute; reflexivity|]. split; [exact Hb | exact Hk].
Defined.

(** C7 as stated fails: when the delete call on the bucket fails, the
    failure is logged and the blob stays, so the next load still finds the
    tenant configured. *)
Lemma config_survives_failed_delete_counterexample :
  let w := world {[ "T1" := "sk-legacy" ]} "T1" in
  let event := mkTokensRevoked (Some (mkTokens None (Some ["B1"]))) in
  let w1 := (handle_tokens_revoked_events event delete_down w).2 in
  let u1 := (handle_app_uninstalled_events delete_down w).2 in
  logged w1 = [DeleteFailed "T1" GoogleAPIError] ∧
  logged u1 = [DeleteFailed "T1" GoogleAPIError] ∧
  bucket w1 !! "T1" = Some "sk-legacy" ∧
  bucket u1 !! "T1" = Some "sk-legacy" ∧
  load fine w1 ≠ NotConfigured ∧
  load fine u1 ≠ NotConfigured.
Proof. vm_compute. repeat split; discriminate. Qed.

Lemma revocation_deletes_config_witness :
  let w := world {[ "T1" := "sk-legacy" ]} "T1" in
  let event := mkTokensRevoked (Some (mkTokens None (Some ["B1"]))) in
  load fine w ≠ NotConfigured ∧
  load fine (handle_tokens_revoked_events event fine w).2 = NotConfigured ∧
  load fine (handle_app_uninstalled_events fine w).2 = NotConfigured.
Proof.
  split; [vm_compute; discriminate|]. split.
  - refine (proj2 (revocation_deletes_config
                     (mkTokensRevoked (Some (mkTokens None (Some ["B1"])))) fine
                     (world {[ "T1" := "sk-legacy" ]} "T1") _ eq_refl
                     (or_introl (conj _ eq_refl))) fine _ eq_refl eq_refl).
    discriminate.
  - refine (proj2 (revocation_deletes_config
                     (mkTokensRevoked None) fine
                     (world {[ "T1" := "sk-legacy" ]} "T1") _ eq_refl
                     (or_intror eq_refl)) fine _ eq_refl eq_refl).
Defined.

Lemma tokens_revoked_nothing_listed_witness :
  let w := world {[ "T1" := "sk-legacy" ]} "T1" in
  handle_tokens_revoked_events (mkTokensRevoked (Some (mkTokens (Some []) (Some [])))) fine w
  = (Returned tt, w) ∧
  handle_tokens_revoked_events (mkTokensRevoked None) fine w = (Returned tt, w).
Proof.
  split; apply tokens_revoked_nothing_listed; reflexivity.
Defined.

End Runs.

(** * The middleware, further *)

Section Middleware.
Context `{AppEnv}.

(** With any next stage the middleware is that stage, started in the
    enriched world. *)
Lemma middleware_run (next_ : Handler unit) (o : Outside) (w : World) :
  set_gcs_openai_api_key next_ o w = next_ o (enriched o w).
Proof.
  unfold enriched, load. run. load_cases o w;
    unfold tenant_config, context_get; cbn [apiKey model imageModel temperature];
    entry.
Qed.

(** The load reads the team's own blob and nothing else of the world. *)
Lemma load_agree (o : Outside) (w1 w2 : World) :
  team_id (context w1) = team_id (context w2) →
  bucket w1 !! team_id (context w1) = bucket w2 !! team_id (context w2) →
  load o w1 = load o w2.
Proof.
  intros Ht Hb. unfold load. run. rewrite Hb, Ht.
  load_cases o w2; unfold tenant_config, context_get; f_equal; entry.
Qed.

(** X1. The middleware changes the context and nothing else: bucket,
    installation store, acks and log records are as before, the context keeps
    its team and enterprise, and every entry under another key than the ten it
    writes is as it was. *)
Theorem middleware_changes_context_only (o : Outside) (w : World) :
  let w' := (set_gcs_openai_api_key (mret tt) o w).2 in
  bucket w' = bucket w ∧ bucket_writes w' = bucket_writes w ∧
  installation_store w' = installation_store w ∧
  acked w' = acked w ∧ logged w' = logged w ∧
  team_id (context w') = team_id (context w) ∧
  enterprise_id (context w') = enterprise_id (context w) ∧
  ∀ k, k ∉ enriched_keys → entries (context w') !! k = entries (context w) !! k.
Proof.
  intros w'. subst w'. rewrite middleware_run. cbn [snd mret Handler_ret].
  unfold enriched. step. repeat split.
  intros k Hk. unfold enriched_keys in Hk.
  repeat (apply not_elem_of_cons in Hk as [? Hk]).
  by rewrite !lookup_insert_ne.
Qed.

(** X2. What a request loads depends on the blob stored under its own team
    id and on whether the download of that blob fails, not on any other blob,
    on what the context held before, on the installation store or on the
    credential provider. *)
Theorem load_own_blob_only (o1 o2 : Outside) (w1 w2 : World) :
  team_id (context w1) = team_id (context w2) →
  bucket w1 !! team_id (context w1) = bucket w2 !! team_id (context w2) →
  storage_fails o1 Download (team_id (context w1))
  = storage_fails o2 Download (team_id (context w2)) →
  load o1 w1 = load o2 w2.
Proof.
  intros Ht Hb Hf. rewrite (load_agree o1 w1 w2 Ht Hb).
  rewrite Ht in Hf. unfold load. run. rewrite Hf.
  load_cases o2 w2; reflexivity.
Qed.

(** X3. Running the middleware twice in a row is running it once: the
    second run finds the same blob and writes the same ten entries. *)
Theorem middleware_idempotent (next_ : Handler unit) (o : Outside) (w : World) :
  set_gcs_openai_api_key (set_gcs_openai_api_key next_) o w
  = set_gcs_openai_api_key next_ o w.
Proof.
  rewrite !middleware_run. f_equal.
  assert (load o (enriched o w) = load o w) as Hl by (by apply load_agree).
  unfold enriched at 1. rewrite Hl. unfold enriched. step.
  unfold set_context. step. do 2 f_equal.
  repeat (rewrite insert_id; [|by entry]). reflexivity.
Qed.

(** X4. Without a blob for the team, or when the download fails, the
    tenant is not configured: the four entries are [None]; and the middleware
    keeps the failure to itself, no log record is written. *)
Theorem load_unconfigured (o : Outside) (w : World) :
  bucket w !! team_id (context w) = None ∨
  storage_fails o Download (team_id (context w)) = true →
  load o w = NotConfigured ∧
  logged (set_gcs_openai_api_key (mret tt) o w).2 = logged w.
Proof.
  intros Hw. split.
  - destruct Hw as [Hb | Hf]; [by apply load_absent | by apply load_download_failed].
  - by rewrite middleware_run.
Qed.

(** X5. The default stands in for a missing key only: a stored record
    whose temperature or image_generation_model is null hands [None] on. *)
Theorem stored_null_not_defaulted (o : Outside) (w : World) (s : string)
    (d : list (string * PyVal)) :
  bucket w !! team_id (context w) = Some s →
  storage_fails o Download (team_id (context w)) = false →
  startswith s "{" = true →
  Json.loads s = Some (PyDict d) →
  (dict_lookup "temperature" d = Some PyNone → temperature (load o w) = PyNone) ∧
  (dict_lookup "image_generation_model" d = Some PyNone → imageModel (load o w) = PyNone).
Proof.
  intros Hb Hf Hs Hd. rewrite (load_structured o w s d Hb Hf Hs Hd).
  cbn [temperature imageModel]. unfold dict_get_or.
  split; intros ->; reflexivity.
Qed.

End Middleware.

(** * The two phases of a submission, further *)

Section Submission.
Context `{AppEnv}.

(** The ack phase in closed form. *)
Lemma validate_api_key_registration_run (view : View) (o : Outside) (w : World) :
  validate_api_key_registration view o w
  = (Returned tt, add_ack (ack_answer o (context w) view) w).
Proof.
  unfold ack_answer. run.
  destruct (retrievable o (api_key_value view) "gpt-3.5-turbo");
    destruct (retrievable o (api_key_value view) (model_value view)); reflexivity.
Qed.

(** X6. The two functions registered for the view do not get in each
    other's way: the ack phase followed by the commit phase leaves the same
    world, with the same outcome, as the commit phase followed by the ack
    phase. *)
Theorem ack_and_commit_commute (view : View) (o : Outside) (w : World) :
  (validate_api_key_registration view ;; save_api_key_registration view) o w
  = (save_api_key_registration view ;; validate_api_key_registration view) o w.
Proof.
  unfold mbind, Handler_bind.
  rewrite validate_api_key_registration_run, (save_api_key_registration_run view o w).
  rewrite save_api_key_registration_run, validate_api_key_registration_run.
  step.
  destruct (retrievable o (api_key_value view) (model_value view));
    destruct (storage_fails o Upload (team_id (context w))); reflexivity.
Qed.

(** X7. The commit phase does not repeat the baseline probe.  For a
    submission whose baseline probe fails and whose model probe passes, the
    ack phase answers with an error on the api_key field, and the commit phase,
    run on the same submission, stores the record all the same: a later load
    finds the rejected key. *)
Theorem commit_ignores_baseline_probe (view : View) (o : Outside) (w : World) :
  retrievable o (api_key_value view) "gpt-3.5-turbo" = false →
  retrievable o (api_key_value view) (model_value view) = true →
  storage_fails o Upload (team_id (context w)) = false →
  let w1 := (validate_api_key_registration view o w).2 in
  let w2 := (save_api_key_registration view o w1).2 in
  (∃ text, acked w2 = acked w ++ [AckErrors {[ "api_key" := text ]}]) ∧
  bucket w2 !! team_id (context w) = Some (registration_data view) ∧
  ∀ o', storage_fails o' Download (team_id (context w)) = false →
        load o' w2 = mkTenantConfigRecord (PyStr (api_key_value view))
                                          (PyStr (model_value view))
                                          OPENAI_IMAGE_GENERATION_MODEL OPENAI_TEMPERATURE.
Proof.
  intros Hbase Hmodel Hup w1 w2. subst w2 w1.
  rewrite validate_api_key_registration_run, save_api_key_registration_run.
  unfold ack_answer. rewrite Hbase. step. rewrite Hmodel, Hup. step.
  split; [eauto|]. split; [apply lookup_insert_eq|].
  intros o' Hd.
  rewrite (load_structured o' _ (registration_data view)
             [("api_key", PyStr (api_key_value view)); ("model", PyStr (model_value view))]).
  - reflexivity.
  - step. apply lookup_insert_eq.
  - exact Hd.
  - reflexivity.
  - apply JsonFacts.loads_dumps_registration.
Qed.

(** X8. The last writer wins: of two submissions committed one after the
    other for the same team, the bucket holds the second, in place of the
    first, and both uploads were carried out in that order. *)
Theorem commit_last_writer_wins (view1 view2 : View) (o1 o2 : Outside) (w : World) :
  retrievable o1 (api_key_value view1) (model_value view1) = true →
  retrievable o2 (api_key_value view2) (model_value view2) = true →
  storage_fails o1 Upload (team_id (context w)) = false →
  storage_fails o2 Upload (team_id (context w)) = false →
  let t := team_id (context w) in
  let w2 := (save_api_key_registration view2 o2 (save_api_key_registration view1 o1 w).2).2 in
  bucket w2 = <[t := registration_data view2]> (bucket w) ∧
  bucket_writes w2
  = bucket_writes w ++ [Uploaded t (registration_data view1);
                        Uploaded t (registration_data view2)].
Proof.
  intros Hp1 Hp2 Hu1 Hu2 t w2. subst w2 t.
  rewrite (save_api_key_registration_run view1 o1 w). step. rewrite Hp1, Hu1.
  rewrite save_api_key_registration_run. step. rewrite Hp2, Hu2. step.
  split; [apply insert_insert_eq | by rewrite <- app_assoc].
Qed.

(** X9. The commit phase touches the blob of its own team only: whatever
    the probes and the upload do, every other blob, the installation store and
    the context are as before. *)
Theorem commit_touches_own_blob_only (view : View) (o : Outside) (w : World) (t' : string) :
  t' ≠ team_id (context w) →
  let w' := (save_api_key_registration view o w).2 in
  bucket w' !! t' = bucket w !! t' ∧
  installation_store w' = installation_store w ∧
  context w' = context w.
Proof.
  intros Ht w'. subst w'. rewrite save_api_key_registration_run. step.
  destruct (retrievable o (api_key_value view) (model_value view));
    destruct (storage_fails o Upload (team_id (context w))); step;
    repeat split; by rewrite ?lookup_insert_ne.
Qed.

(** X21. Behind the middleware the error texts of the ack phase are put
    through [translate] with the key the tenant has stored, never with the
    submitted one; for a tenant that is not configured they are the plain
    English texts. *)
Theorem ack_texts_use_stored_key (view : View) (o : Outside) (w : World) :
  let w' := enriched o w in
  let stored := apiKey (load o w) in
  let localized text :=
    match stored with
    | PyNone => text
    | _ => translate stored (context w') text
    end in
  set_gcs_openai_api_key (validate_api_key_registration view) o w
  = (Returned tt,
     add_ack
       match retrievable o (api_key_value view) "gpt-3.5-turbo",
             retrievable o (api_key_value view) (model_value view) with
       | false, _ => AckErrors {[ "api_key" := localized "This API key seems to be invalid" ]}
       | true, false =>
           AckErrors {[ "model" := localized "This model is not yet available for this API key" ]}
       | true, true => AckOk
       end w').
Proof.
  intros w' stored localized. subst localized stored w'.
  rewrite middleware_run, validate_api_key_registration_run. unfold ack_answer.
  assert (context_get (context (enriched o w)) "OPENAI_API_KEY" = apiKey (load o w)) as ->
    by (unfold enriched, context_get; entry).
  reflexivity.
Qed.

End Submission.

(** * The revocation handlers, further *)

Section Revocation.

(** X10. A revocation in one workspace leaves the others alone: after
    either handler, every installation and every bot record of another
    workspace is still there, and so is every blob stored under another team
    id. *)
Theorem revocation_leaves_other_workspaces (event : TokensRevoked) (o : Outside) (w : World) :
  let e := enterprise_id (context w) in
  let t := team_id (context w) in
  let r1 := (handle_tokens_revoked_events event o w).2 in
  let r2 := (handle_app_uninstalled_events o w).2 in
  (∀ i, i ∈ installations (installation_store w) →
        ¬ (inst_enterprise i = e ∧ inst_team i = t) →
        i ∈ installations (installation_store r1) ∧
        i ∈ installations (installation_store r2)) ∧
  (∀ b, b ∈ bots (installation_store w) → ¬ bot_matches e t b →
        b ∈ bots (installation_store r1) ∧ b ∈ bots (installation_store r2)) ∧
  (∀ t', t' ≠ t → bucket r1 !! t' = bucket w !! t' ∧ bucket r2 !! t' = bucket w !! t').
Proof.
  intros e t r1 r2.
  destruct (tokens_revoked_stores event o w) as (_ & _ & Hi1 & Hb1 & Hk1).
  destruct (app_uninstalled_stores o w) as (_ & _ & Hi2 & Hb2 & Hk2).
  fold e t r1 in Hi1, Hb1, Hk1. fold e t r2 in Hi2, Hb2, Hk2.
  repeat split.
  - rewrite Hi1. apply list_elem_of_filter. split; [tauto | done].
  - rewrite Hi2. apply list_elem_of_filter. split; [|done].
    unfold installation_matches. tauto.
  - rewrite Hb1. destruct (revoked_bots event); [done|].
    by apply list_elem_of_filter.
  - rewrite Hb2. by apply list_elem_of_filter.
  - rewrite Hk1. destruct (revoked_bots event); [done|].
    destruct (storage_fails o Delete t); [done | by apply lookup_delete_ne].
  - rewrite Hk2. destruct (storage_fails o Delete t); [done | by apply lookup_delete_ne].
Qed.

(** X11. After [app_uninstalled] the installation store holds nothing of
    the workspace, neither an installation of any user nor a bot record,
    whether or not the delete of the blob went through. *)
Theorem app_uninstalled_clears_workspace (o : Outside) (w : World) :
  let e := enterprise_id (context w) in
  let t := team_id (context w) in
  let r := (handle_app_uninstalled_events o w).2 in
  (∀ i, i ∈ installations (installation_store r) →
        ¬ (inst_enterprise i = e ∧ inst_team i = t)) ∧
  (∀ b, b ∈ bots (installation_store r) → ¬ bot_matches e t b).
Proof.
  intros e t r.
  destruct (app_uninstalled_stores o w) as (_ & _ & Hi & Hb & _).
  fold e t r in Hi, Hb. split.
  - intros i. rewrite Hi, list_elem_of_filter. unfold installation_matches. tauto.
  - intros b. rewrite Hb, list_elem_of_filter. tauto.
Qed.

(** X12. A bot-token revocation removes the bot record of the workspace
    and, unlike an uninstall, keeps the installations of the users the event
    does not name. *)
Theorem bot_revocation_keeps_other_users (event : TokensRevoked) (o : Outside) (w : World) :
  revoked_bots event ≠ [] →
  let e := enterprise_id (context w) in
  let t := team_id (context w) in
  let r := (handle_tokens_revoked_events event o w).2 in
  (∀ b, b ∈ bots (installation_store r) → ¬ bot_matches e t b) ∧
  (∀ i, i ∈ installations (installation_store w) → inst_user i ∉ revoked_users event →
        i ∈ installations (installation_store r)).
Proof.
  intros Hbots e t r.
  destruct (tokens_revoked_stores event o w) as (_ & _ & Hi & Hb & _).
  fold e t r in Hi, Hb. split.
  - intros b. rewrite Hb. destruct (revoked_bots event); [done|].
    rewrite list_elem_of_filter. tauto.
  - intros i Hin Hu. rewrite Hi. apply list_elem_of_filter. split; [tauto | done].
Qed.

(** X13. For a workspace that never stored a key the delete finds no blob:
    the handlers log one failure, write nothing to the bucket and return. *)
Theorem revocation_missing_blob_logged (event : TokensRevoked) (o : Outside) (w : World) :
  bucket w !! team_id (context w) = None →
  storage_fails o Delete (team_id (context w)) = false →
  revoked_bots event ≠ [] →
  let t := team_id (context w) in
  let r1 := handle_tokens_revoked_events event o w in
  let r2 := handle_app_uninstalled_events o w in
  r1.1 = Returned tt ∧ r2.1 = Returned tt ∧
  logged r1.2 = logged w ++ [DeleteFailed t NotFound] ∧
  logged r2.2 = logged w ++ [DeleteFailed t NotFound] ∧
  bucket r1.2 = bucket w ∧ bucket r2.2 = bucket w ∧
  bucket_writes r1.2 = bucket_writes w ∧ bucket_writes r2.2 = bucket_writes w.
Proof.
  intros Hb Hf Hbots t r1 r2. subst r1 r2 t.
  rewrite tokens_revoked_run, app_uninstalled_run, for_each_delete_installation.
  destruct (revoked_bots event) as [|b bs]; [done|].
  rewrite !config_delete_run.
  unfold delete_all, delete_bot, delete_installation, modify, mbind, Handler_bind. step.
  rewrite Hf, Hb. step. done.
Qed.

(** X14. An uninstall covers every later token revocation: whatever a
    [tokens_revoked] event for the workspace lists, it finds nothing left to
    remove from the installation store. *)
Theorem uninstall_absorbs_tokens_revoked (event : TokensRevoked) (o o' : Outside) (w : World) :
  let u := (handle_app_uninstalled_events o w).2 in
  installation_store (handle_tokens_revoked_events event o' u).2 = installation_store u.
Proof.
  intros u.
  destruct (app_uninstalled_stores o w) as (_ & Hc & Hi & Hb & _).
  destruct (tokens_revoked_stores event o' u) as (_ & _ & Hi' & Hb' & _).
  fold u in Hc, Hi, Hb. rewrite Hc in Hi', Hb'.
  assert (∀ s s' : InstallationStore,
            installations s = installations s' → bots s = bots s' → s = s') as Heq
    by (intros [] []; cbn; congruence).
  apply Heq.
  - rewrite Hi', Hi, list_filter_filter. apply list_filter_iff. intros i.
    unfold installation_matches. tauto.
  - rewrite Hb'. destruct (revoked_bots event); [done|].
    rewrite Hb, list_filter_filter. apply list_filter_iff. tauto.
Qed.

(** X15. No revocation handler fails, in any world and whatever the bucket
    does; the log grows by at most one record, a failed delete of the blob of
    the handler's own team. *)
Theorem revocation_never_raises (event : TokensRevoked) (o : Outside) (w : World) :
  let t := team_id (context w) in
  let r1 := handle_tokens_revoked_events event o w in
  let r2 := handle_app_uninstalled_events o w in
  r1.1 = Returned tt ∧ r2.1 = Returned tt ∧
  (logged r1.2 = logged w ∨ ∃ e, logged r1.2 = logged w ++ [DeleteFailed t e]) ∧
  (logged r2.2 = logged w ∨ ∃ e, logged r2.2 = logged w ++ [DeleteFailed t e]).
Proof.
  intros t r1 r2. subst r1 r2 t.
  rewrite tokens_revoked_run, app_uninstalled_run, for_each_delete_installation.
  destruct (revoked_bots event); rewrite !config_delete_run;
    unfold delete_all, delete_bot, delete_installation, modify, mbind, Handler_bind; step;
    destruct (storage_fails o Delete (team_id (context w)));
    destruct (bucket w !! team_id (context w)); step;
    repeat split; first [by left | right; by eexists].
Qed.

End Revocation.

(** * The home tab, the configure button and the locale *)

Section Listeners.
Context `{AppEnv} `{SlackUI}.

(** The home tab handler in closed form. *)
Lemma home_tab_ready_iff_blob_aux (req : Requester) (client : WebClient)
    (o : Outside) (w : World) :
  render_home_tab req client o w
  = views_publish client (user_id req)
      (build_home_tab (context_get (context w) "OPENAI_API_KEY") (context w)
         (if negb (storage_fails o Download (team_id (context w)))
             && bool_decide (is_Some (bucket w !! team_id (context w)))
          then "This app is ready to use in this workspace :raised_hands:"
          else DEFAULT_HOME_TAB_MESSAGE)) o w.
Proof.
  unfold render_home_tab. run.
  destruct (storage_fails o Download (team_id (context w))); [reflexivity|].
  destruct (bucket w !! team_id (context w)); reflexivity.
Qed.

(** X16. The home tab publishes one view and writes nothing.  Behind the
    middleware its two reads are independent: the api key it shows is the one
    the middleware loaded, while the message says that the app is ready exactly
    when a blob of the team can be downloaded, whatever the blob holds; a blob
    that the middleware could not use still makes the tab say ready. *)
Theorem home_tab_behind_middleware (req : Requester) (client : WebClient)
    (o : Outside) (w : World) :
  let t := team_id (context w) in
  let ready := negb (storage_fails o Download t) && bool_decide (is_Some (bucket w !! t)) in
  set_gcs_openai_api_key (render_home_tab req client) o w
  = views_publish client (user_id req)
      (build_home_tab (apiKey (load o w)) (context (enriched o w))
         (if ready then "This app is ready to use in this workspace :raised_hands:"
          else DEFAULT_HOME_TAB_MESSAGE)) o (enriched o w).
Proof.
  intros t ready. subst ready t.
  rewrite middleware_run, home_tab_ready_iff_blob_aux.
  assert (context_get (context (enriched o w)) "OPENAI_API_KEY" = apiKey (load o w)) as ->
    by (unfold enriched, context_get; entry).
  reflexivity.
Qed.

(** X17. The configure button is acknowledged before the modal is opened,
    so the acknowledgement stands whatever [views_open] does; behind the
    middleware the modal is built from the enriched context, and nothing is
    written to the bucket on the way. *)
Theorem configure_button_behind_middleware (trigger_id : string) (client : WebClient)
    (o : Outside) (w : World) :
  let w' := add_ack AckOk (enriched o w) in
  set_gcs_openai_api_key (handle_configure_button trigger_id client) o w
  = views_open client trigger_id (build_configure_modal (context (enriched o w))) o w' ∧
  bucket w' = bucket w ∧ bucket_writes w' = bucket_writes w.
Proof.
  intros w'. subst w'. rewrite middleware_run. repeat split.
Qed.

(** X18. Without the users:read scope [set_locale] returns without running
    the next stage: the call of [next_] belongs to the body of the [if], so
    the request goes no further and the world is as it was. *)
Theorem set_locale_stops_without_scope (req : Requester) (client : WebClient)
    (logger_debug : string → Handler unit) (next_ : Handler unit) (o : Outside) (w : World) :
  match bot_scopes req with
  | Some scopes => "users:read" ∉ scopes
  | None => True
  end →
  set_locale req client logger_debug next_ o w = (Returned tt, w).
Proof.
  unfold set_locale. destruct (bot_scopes req) as [scopes|]; [|reflexivity].
  intros Hs. by rewrite bool_decide_false.
Qed.

(** X19. With the scope, a [SlackApiError] from [users_info] does not stop
    the request: it goes to the debug log, no locale is written, and the next
    stage runs.  The user asked about is the actor, or the user when there is
    no actor. *)
Theorem set_locale_survives_api_error (req : Requester) (client : WebClient)
    (logger_debug : string → Handler unit) (next_ : Handler unit) (o : Outside)
    (w w1 : World) (scopes : list string) (e : string) :
  bot_scopes req = Some scopes →
  "users:read" ∈ scopes →
  users_info client (py_or (actor_user_id req) (user_id req)) o w = (Returned (SlackApiError e), w1) →
  set_locale req client logger_debug next_ o w
  = (logger_debug ("Failed to fetch user info due to " +:+ e) ;; next_) o w1.
Proof.
  intros Hs Hin Hu. unfold set_locale. rewrite Hs, bool_decide_true by done.
  unfold mbind, Handler_bind. by rewrite Hu.
Qed.

(** X20. With the scope and an answer from [users_info], the locale of the
    answer goes into the context and the next stage runs; an answer without a
    user, or a user without a locale, sets the locale to [None]. *)
Theorem set_locale_sets_locale (req : Requester) (client : WebClient)
    (logger_debug : string → Handler unit) (next_ : Handler unit) (o : Outside)
    (w w1 : World) (scopes : list string) (d u : list (string * PyVal)) :
  bot_scopes req = Some scopes →
  "users:read" ∈ scopes →
  users_info client (py_or (actor_user_id req) (user_id req)) o w
  = (Returned (UsersInfoResponse (PyDict d)), w1) →
  dict_get_or d "user" (PyDict []) = PyDict u →
  set_locale req client logger_debug next_ o w
  = (context_set "locale" (dict_get u "locale") ;; next_) o w1 ∧
  (dict_lookup "user" d = None → dict_get u "locale" = PyNone).
Proof.
  intros Hs Hin Hu Hd. split.
  - unfold set_locale. rewrite Hs, bool_decide_true by done.
    unfold mbind, Handler_bind. rewrite Hu. unfold config_get, mret, Handler_ret.
    by rewrite Hd.
  - intros Hn. unfold dict_get_or in Hd. rewrite Hn in Hd. cbn in Hd.
    by injection Hd as <-.
Qed.

End Listeners.

(** * More concrete runs *)

Module MoreRuns.
Import Example Cases.
#[local] Existing Instance env.
#[local] Existing Instance ui.

(** A request of T1 whose context still carries an entry from elsewhere. *)
Definition stale : World :=
  mkWorld {[ "T1" := "sk-legacy" ]} [] (mkInstallationStore [] [])
          (mkBoltContext None "T1" {[ "OPENAI_API_KEY" := PyStr "sk-stale" ]}) [] [].

Definition debug_to_context (message : string) : Handler unit :=
  context_set "debug" (PyStr message).

Lemma load_own_blob_only_witness :
  load fine (world {[ "T1" := "sk-legacy"; "T2" := "sk-other" ]} "T1") = load narrow stale.
Proof.
  apply (load_own_blob_only fine narrow
           (world {[ "T1" := "sk-legacy"; "T2" := "sk-other" ]} "T1") stale);
    vm_compute; reflexivity.
Defined.

Lemma load_unconfigured_witness :
  load fine (world ∅ "T1") = NotConfigured ∧
  load delete_down (world ∅ "T1") = NotConfigured.
Proof.
  split.
  - exact (proj1 (load_unconfigured fine (world ∅ "T1") (or_introl eq_refl))).
  - exact (proj1 (load_unconfigured delete_down (world ∅ "T1") (or_introl eq_refl))).
Defined.

Lemma stored_null_not_defaulted_witness :
  let s := json_text "{'api_key': 'sk-1', 'temperature': null}" in
  temperature (load fine (world {[ "T1" := s ]} "T1")) = PyNone.
Proof.
  exact (proj1 (stored_null_not_defaulted fine
                  (world {[ "T1" := json_text "{'api_key': 'sk-1', 'temperature': null}" ]} "T1")
                  (json_text "{'api_key': 'sk-1', 'temperature': null}")
                  [("api_key", PyStr "sk-1"); ("temperature", PyNone)]
                  eq_refl eq_refl eq_refl eq_refl) eq_refl).
Defined.

Lemma commit_ignores_baseline_probe_witness :
  let view := mkView "sk-narrow" "gpt-x" in
  let w1 := (validate_api_key_registration view narrow (world ∅ "T1")).2 in
  let w2 := (save_api_key_registration view narrow w1).2 in
  acked w2 = [AckErrors {[ "api_key" := "This API key seems to be invalid" ]}] ∧
  load fine w2 = mkTenantConfigRecord (PyStr "sk-narrow") (PyStr "gpt-x")
                                      (PyStr "dall-e-3") (PyNum "1.0").
Proof.
  split; [vm_compute; reflexivity|].
  exact (proj2 (proj2 (commit_ignores_baseline_probe (mkView "sk-narrow" "gpt-x") narrow
                         (world ∅ "T1") eq_refl eq_refl eq_refl)) fine eq_refl).
Defined.

Lemma commit_last_writer_wins_witness :
  let w2 := (save_api_key_registration (mkView "sk-good" "gpt-3.5-turbo") fine
               (save_api_key_registration (mkView "sk-good" "gpt-x") fine
                  (world ∅ "T1")).2).2 in
  bucket w2 = {[ "T1" := registration_data (mkView "sk-good" "gpt-3.5-turbo") ]}.
Proof.
  cbv zeta.
  rewrite (proj1 (commit_last_writer_wins (mkView "sk-good" "gpt-x")
                    (mkView "sk-good" "gpt-3.5-turbo") fine fine (world ∅ "T1")
                    eq_refl eq_refl eq_refl eq_refl)).
  vm_compute. reflexivity.
Defined.

Lemma commit_touches_own_blob_only_witness :
  let w := world {[ "T2" := "sk-other" ]} "T1" in
  bucket (save_api_key_registration (mkView "sk-good" "gpt-x") fine w).2 !! "T2"
  = Some "sk-other".
Proof.
  assert ("T2" ≠ "T1") as Hne by discriminate.
  exact (proj1 (commit_touches_own_blob_only (mkView "sk-good" "gpt-x") fine
                  (world {[ "T2" := "sk-other" ]} "T1") "T2" Hne)).
Defined.

Lemma bot_revocation_keeps_other_users_witness :
  let event := mkTokensRevoked (Some (mkTokens (Some ["U1"]) (Some ["B1"]))) in
  mkInstallation None "T1" "U2"
  ∈ installations (installation_store
                     (handle_tokens_revoked_events event fine (world ∅ "T1")).2).
Proof.
  refine (proj2 (bot_revocation_keeps_other_users
                   (mkTokensRevoked (Some (mkTokens (Some ["U1"]) (Some ["B1"])))) fine
                   (world ∅ "T1") _) (mkInstallation None "T1" "U2") _ _).
  - discriminate.
  - vm_compute. apply list_elem_of_further, list_elem_of_here.
  - vm_compute. intros Hin. apply list_elem_of_In in Hin. destruct Hin as [[=]|[]].
Defined.

Lemma revocation_missing_blob_logged_witness :
  let event := mkTokensRevoked (Some (mkTokens None (Some ["B1"]))) in
  logged (handle_tokens_revoked_events event fine (world ∅ "T1")).2
  = [DeleteFailed "T1" NotFound] ∧
  logged (handle_app_uninstalled_events fine (world ∅ "T1")).2
  = [DeleteFailed "T1" NotFound].
Proof.
  assert (revoked_bots (mkTokensRevoked (Some (mkTokens None (Some ["B1"])))) ≠ []) as Hb
    by discriminate.
  assert (bucket (world ∅ "T1") !! team_id (context (world ∅ "T1")) = None) as Hn
    by reflexivity.
  destruct (revocation_missing_blob_logged
              (mkTokensRevoked (Some (mkTokens None (Some ["B1"])))) fine (world ∅ "T1")
              Hn eq_refl Hb) as (_ & _ & H1 & H2 & _).
  split; [exact H1 | exact H2].
Defined.

(** The blob of T1 does not decode, the middleware leaves the key at
    [None], and the home tab says that the app is ready. *)
Example home_tab_ready_without_key :
  let w := world {[ "T1" := "{oops" ]} "T1" in
  let shown := (set_gcs_openai_api_key (render_home_tab with_scope client) fine w).2 in
  load fine w = NotConfigured ∧
  context_get (context shown) "views.publish"
  = PyDict [("key", PyNone);
            ("text", PyStr "This app is ready to use in this workspace :raised_hands:")].
Proof. vm_compute. split; reflexivity. Qed.

Lemma set_locale_stops_without_scope_witness :
  set_locale without_scope client debug_to_context (context_set "handled" (PyBool true))
             fine (world ∅ "T1")
  = (Returned tt, world ∅ "T1").
Proof.
  apply set_locale_stops_without_scope. vm_compute.
  intros Hin. apply list_elem_of_In in Hin. destruct Hin as [[=]|[]].
Defined.

Lemma set_locale_survives_api_error_witness :
  let req := mkRequester (Some ["users:read"]) None (Some "U9") in
  let w' := (set_locale req client debug_to_context (context_set "handled" (PyBool true))
               fine (world ∅ "T1")).2 in
  context_get (context w') "handled" = PyBool true ∧
  context_get (context w') "debug"
  = PyStr "Failed to fetch user info due to user_not_found" ∧
  entries (context w') !! "locale" = None.
Proof.
  cbv zeta.
  rewrite (set_locale_survives_api_error
             (mkRequester (Some ["users:read"]) None (Some "U9")) client debug_to_context
             (context_set "handled" (PyBool true)) fine (world ∅ "T1") (world ∅ "T1")
             ["users:read"] "user_not_found" eq_refl (list_elem_of_here _ _) eq_refl).
  vm_compute. repeat split.
Defined.

Lemma set_locale_sets_locale_witness :
  let w' := (set_locale with_scope client debug_to_context (context_set "handled" (PyBool true))
               fine (world ∅ "T1")).2 in
  context_get (context w') "handled" = PyBool true ∧
  context_get (context w') "locale" = PyStr "ja-JP".
Proof.
  cbv zeta.
  rewrite (proj1 (set_locale_sets_locale with_scope client debug_to_context
                    (context_set "handled" (PyBool true)) fine (world ∅ "T1") (world ∅ "T1")
                    ["chat:write"; "users:read"]
                    [("ok", PyBool true);
                     ("user", PyDict [("id", PyStr "U1"); ("locale", PyStr "ja-JP")])]
                    [("id", PyStr "U1"); ("locale", PyStr "ja-JP")]
                    eq_refl (list_elem_of_further _ _ _ (list_elem_of_here _ _))
                    eq_refl eq_refl)).
  vm_compute. repeat split.
Defined.

End MoreRuns.
